(** * Folder monitor with ntfy.sh notifications: a shallow embedding

    This development embeds [folder_monitor.py] and proves properties of
    its event filter, its notification builder, its size formatter and
    its start-up / shut-down sequence.

    Conventions.
    - A Python [str] is a [string]: the sequence of the bytes of its
      UTF-8 encoding.  [lower] and [strip] act on the ASCII range only.
    - A Python [dict] with string keys is a [gmap string _].
    - Effects (logging, HTTP, the observer, [sys.exit]) are threaded
      through a small state-and-exception monad [M]; the outside world
      (file system, clock, network) is an explicit environment [env]. *)

From Stdlib Require Import ZArith QArith String Ascii List Lia Bool.
From Stdlib Require Import DecimalString.
From stdpp Require Import base gmap strings.

Import ListNotations.
Local Open Scope string_scope.
Local Open Scope Z_scope.

(** ** Python string primitives *)

Module PyStr.

(** [s.rfind(c)]: highest index of the character [c], [-1] if absent. *)
Fixpoint rfind (c : ascii) (s : string) : Z :=
  match s with
  | EmptyString => -1
  | String a s' =>
      let r := rfind c s' in
      if 0 <=? r then r + 1
      else if Ascii.eqb a c then 0 else -1
  end.

(** [s[n:]] for a natural number [n]. *)
Fixpoint str_drop (n : nat) (s : string) : string :=
  match n, s with
  | O, _ => s
  | S n', String _ s' => str_drop n' s'
  | S _, EmptyString => EmptyString
  end.

(** [s[:n]] for a natural number [n]. *)
Fixpoint str_take (n : nat) (s : string) : string :=
  match n, s with
  | O, _ => EmptyString
  | S n', String a s' => String a (str_take n' s')
  | S _, EmptyString => EmptyString
  end.

(** [s[i:]] and [s[:i]] for a non-negative index (the only ones the
    program uses); a negative index is clamped to [0] here. *)
Definition slice_from (i : Z) (s : string) : string := str_drop (Z.to_nat i) s.
Definition slice_to (i : Z) (s : string) : string := str_take (Z.to_nat i) s.

(** [s[i:i+1]]: the one-character string at [i], empty out of range. *)
Definition char_at (i : Z) (s : string) : string :=
  str_take 1 (slice_from i s).

Definition lower_ascii (a : ascii) : ascii :=
  let n := nat_of_ascii a in
  if ((65 <=? n) && (n <=? 90))%nat then ascii_of_nat (n + 32) else a.

(** [s.lower()], on the ASCII letters; every other byte is kept. *)
Fixpoint lower (s : string) : string :=
  match s with
  | EmptyString => EmptyString
  | String a s' => String (lower_ascii a) (lower s')
  end.

(** [x in xs] for a list of strings. *)
Definition mem (x : string) (xs : list string) : bool :=
  existsb (String.eqb x) xs.

(** [sep.join(xs)]. *)
Fixpoint join (sep : string) (xs : list string) : string :=
  match xs with
  | [] => ""
  | [x] => x
  | x :: rest => x ++ sep ++ join sep rest
  end.

(** [s.startswith(c)] for a one-character prefix. *)
Definition startswith_char (c : ascii) (s : string) : bool :=
  match s with
  | String a _ => Ascii.eqb a c
  | EmptyString => false
  end.

(** The characters [str.strip()] removes, in the ASCII range. *)
Definition is_space (a : ascii) : bool :=
  let n := nat_of_ascii a in
  (((9 <=? n) && (n <=? 13)) || ((28 <=? n) && (n <=? 32)))%nat.

Fixpoint lstrip (s : string) : string :=
  match s with
  | String a s' => if is_space a then lstrip s' else s
  | EmptyString => EmptyString
  end.

Fixpoint rstrip (s : string) : string :=
  match s with
  | EmptyString => EmptyString
  | String a s' =>
      match rstrip s' with
      | EmptyString => if is_space a then EmptyString else String a EmptyString
      | t => String a t
      end
  end.

(** [s.strip()]. *)
Definition strip (s : string) : string := rstrip (lstrip s).

(** [s.split(c)] for a one-character separator: never the empty list. *)
Fixpoint split (c : ascii) (s : string) : list string :=
  match s with
  | EmptyString => [""]
  | String a s' =>
      if Ascii.eqb a c then "" :: split c s'
      else match split c s' with
           | [] => [String a ""]
           | w :: ws => String a w :: ws
           end
  end.

(** [s.rsplit(c, 1)[0]]: the text before the last [c], the whole string
    when [c] does not occur. *)
Definition rsplit1_head (c : ascii) (s : string) : string :=
  let i := rfind c s in
  if i <? 0 then s else slice_to i s.

(** [str(n)] for an integer. *)
Definition str_of_Z (n : Z) : string :=
  NilZero.string_of_int (Z.to_int n).

End PyStr.

(** ** [os.path] (POSIX flavour) *)

Module OsPath.
Import PyStr.

(** The loop of [genericpath._splitext] that skips the leading dots of
    the file name: [fuel] bounds the iterations by [dotIndex -
    filenameIndex]. *)
Fixpoint splitext_loop (fuel : nat) (p : string) (filenameIndex dotIndex : Z)
  : string * string :=
  match fuel with
  | O => (p, slice_to 0 p)
  | S fuel' =>
      if filenameIndex <? dotIndex then
        if negb (String.eqb (char_at filenameIndex p) ".")
        then (slice_to dotIndex p, slice_from dotIndex p)
        else splitext_loop fuel' p (filenameIndex + 1) dotIndex
      else (p, slice_to 0 p)
  end.

(** [os.path.splitext(p)]. *)
Definition splitext (p : string) : string * string :=
  let sepIndex := rfind "/" p in
  let dotIndex := rfind "." p in
  if sepIndex <? dotIndex then
    let filenameIndex := sepIndex + 1 in
    splitext_loop (S (Z.to_nat (dotIndex - filenameIndex))) p
      filenameIndex dotIndex
  else (p, slice_to 0 p).

(** [os.path.basename(p)]. *)
Definition basename (p : string) : string :=
  slice_from (rfind "/" p + 1) p.

(** [head.rstrip('/')]. *)
Fixpoint rstrip_sep (s : string) : string :=
  match s with
  | EmptyString => EmptyString
  | String a s' =>
      match rstrip_sep s' with
      | EmptyString => if Ascii.eqb a "/" then EmptyString else String a EmptyString
      | t => String a t
      end
  end.

(** [os.path.dirname(p)]: the head is kept as it is when it consists of
    separators only. *)
Definition dirname (p : string) : string :=
  let head := slice_to (rfind "/" p + 1) p in
  match rstrip_sep head with
  | EmptyString => head
  | t => t
  end.

End OsPath.

(** ** Numbers: [int], [float] and the [.2f] format *)

Module PyNum.
Import PyStr.

(** A [float] is represented by the rational it holds exactly. *)
Inductive pynum :=
| NInt (n : Z)
| NFloat (q : Q).

(** Nearest integer with at most 53 significant bits, ties to even: the
    rounding of an [int] that does not fit a double's mantissa. *)
Definition round53 (n : Z) : Z :=
  if n <? 2 ^ 53 then n
  else
    let e := Z.log2 n - 52 in
    let q := Z.shiftr n e in
    let r := n mod 2 ^ e in
    let half := 2 ^ (e - 1) in
    let q' := if (half <? r) || ((r =? half) && Z.odd q) then q + 1 else q in
    Z.shiftl q' e.

(** [x / 1024]: true division.  On an [int] the quotient is rounded
    once to the nearest double; on a [float] scaling by a power of two
    is exact (no overflow or underflow on the values reached here: a
    file size is below [2^63], far from the [OverflowError] of an [int]
    beyond the range of a double). *)
Definition truediv_1024 (x : pynum) : pynum :=
  match x with
  | NInt n => NFloat (round53 n # 1024)
  | NFloat q => NFloat (q / 1024)
  end.

Definition Qltb (a b : Q) : bool :=
  Qnum a * Zpos (Qden b) <? Qnum b * Zpos (Qden a).

(** [x < 1024]. *)
Definition lt_1024 (x : pynum) : bool :=
  match x with
  | NInt n => n <? 1024
  | NFloat q => Qltb q 1024
  end.

(** Nearest integer to [a / b] for [0 <= a], [0 < b], ties to even. *)
Definition div_half_even (a b : Z) : Z :=
  let q := a / b in
  let r := a mod b in
  if (b <? 2 * r) || ((2 * r =? b) && Z.odd q) then q + 1 else q.

Definition two_digits (n : Z) : string :=
  str_of_Z (n / 10) ++ str_of_Z (n mod 10).

(** [f"{q:.2f}"]: the exact value rounded to hundredths, ties to even. *)
Definition format_2f_Q (q : Q) : string :=
  let h := div_half_even (100 * Z.abs (Qnum q)) (Zpos (Qden q)) in
  (if Qnum q <? 0 then "-" else "")
    ++ str_of_Z (h / 100) ++ "." ++ two_digits (h mod 100).

(** An [int] is converted to [float] before formatting; the conversion
    rounds as [round53] does. *)
Definition format_2f (x : pynum) : string :=
  match x with
  | NInt n => format_2f_Q (Z.sgn n * round53 (Z.abs n) # 1)
  | NFloat q => format_2f_Q q
  end.

End PyNum.

(** ** The outside world and the effect monad *)

Inductive level := DEBUG | INFO | ERROR.

(** A JSON-serialisable Python value, as stored in the payload. *)
#[warnings="-register-all"]
Inductive jval :=
| JStr (s : string)
| JInt (n : Z)
| JList (l : list jval).

(** What [requests.post] does: it answers with a status code or raises
    a transport error (a subclass of [Exception]). *)
Inductive net_outcome :=
| Status (code : Z)
| TransportError (msg : string).

(** What [os.path.getsize] does. *)
Inductive size_outcome :=
| Size (n : N)
| OSError (msg : string).

Inductive effect :=
| Log (l : level) (msg : string)
| Post (url : string) (payload : gmap string jval)
| ObserverSchedule (path : string) (recursive : bool)
| ObserverStart
| ObserverStop
| ObserverJoin
| Sleep.

Inductive exn :=
| Exception (msg : string)
| KeyboardInterrupt
| SystemExit (code : Z).

Inductive result (A : Type) :=
| Ret (a : A)
| Raise (e : exn).
Arguments Ret {A} a.
Arguments Raise {A} e.

(** The mutable part: the effects performed so far, oldest first. *)
Definition state : Type := list effect.

Definition is_post (e : effect) : bool :=
  match e with
  | Post _ _ => true
  | _ => false
  end.

(** The number of HTTP requests issued so far. *)
Definition sent (s : state) : nat := length (List.filter is_post s).

Definition M (A : Type) : Type := state -> result A * state.

Definition ret {A} (a : A) : M A := fun s => (Ret a, s).

Definition raise {A} (e : exn) : M A := fun s => (Raise e, s).

Definition bind {A B} (m : M A) (k : A -> M B) : M B :=
  fun s =>
    match m s with
    | (Ret a, s') => k a s'
    | (Raise e, s') => (Raise e, s')
    end.

Notation "x <- m ;; k" := (bind m (fun x => k))
  (at level 100, m at level 99, right associativity).
Notation "m ;;; k" := (bind m (fun _ => k))
  (at level 100, right associativity).

(** [try: body / except Exception as e: handler(str(e))]: only the
    [Exception] class is caught. *)
Definition try_except {A} (body : M A) (handler : string -> M A) : M A :=
  fun s =>
    match body s with
    | (Raise (Exception msg), s') => handler msg s'
    | r => r
    end.

(** [try: body / except KeyboardInterrupt: handler]. *)
Definition try_except_interrupt {A} (body : M A) (handler : M A) : M A :=
  fun s =>
    match body s with
    | (Raise KeyboardInterrupt, s') => handler s'
    | r => r
    end.

Definition emit (e : effect) : M unit :=
  fun s => (Ret tt, (s ++ [e])%list).

Definition log (l : level) (msg : string) : M unit := emit (Log l msg).

(** A file-system event as the watch facility delivers it. *)
Inductive kind := Created | Modified | Deleted | Moved.

Record event := mkEvent {
  event_kind : kind;
  src_path : string;
  dest_path : string;
  is_directory : bool
}.

(** The read-only environment of one run. *)
Record env := mkEnv {
  path_exists : string -> bool;          (* os.path.exists *)
  isfile : string -> bool;               (* os.path.isfile *)
  getsize : string -> size_outcome;      (* os.path.getsize *)
  abspath : string -> string;            (* os.path.abspath *)
  now : string;                          (* datetime.now().strftime(...) *)
  net : nat -> net_outcome;              (* answer to the i-th request *)
  arrivals : list event;                 (* events of the run, in order *)
  interrupt_after : nat                  (* sleeps completed before Ctrl-C *)
}.

(** ** [class FileChangeHandler] *)

Module FileChangeHandler.
Import PyStr OsPath PyNum.

Record handler := mkHandler {
  topic : string;
  include_extensions : option (list string);
  exclude_directories : bool
}.

(** The [priority] argument: [None], a [str] or an [int]. *)
Inductive priority_arg :=
| PNone
| PName (s : string)
| PInt (n : Z).

(** Truth value of an optional string: [None] and [""] are false. *)
Definition truthy_str (o : option string) : bool :=
  match o with
  | Some (String _ _) => true
  | _ => false
  end.

(** Truth value of an optional list: [None] and [[]] are false. *)
Definition truthy_list {A} (o : option (list A)) : bool :=
  match o with
  | Some (_ :: _) => true
  | _ => false
  end.

Definition truthy_priority (p : priority_arg) : bool :=
  match p with
  | PNone => false
  | PName s => truthy_str (Some s)
  | PInt n => negb (n =? 0)
  end.

Definition should_process_event (self : handler) (e : event) : bool :=
  if exclude_directories self && is_directory e then false
  else if truthy_list (include_extensions self) && negb (is_directory e) then
    let ext := snd (splitext (src_path e)) in
    if negb (mem (lower ext) (default [] (include_extensions self)))
    then false
    else true
  else true.

Definition units : list string := ["B"; "KB"; "MB"; "GB"; "TB"].

(** The [for unit in ...] loop of [_get_file_size]; [None] when the
    loop ends without returning. *)
Fixpoint size_loop (us : list string) (size_bytes : pynum) : option string :=
  match us with
  | [] => None
  | unit :: rest =>
      if lt_1024 size_bytes || String.eqb unit "TB"
      then Some (format_2f size_bytes ++ " " ++ unit)
      else size_loop rest (truediv_1024 size_bytes)
  end.

Definition os_getsize (w : env) (path : string) : M Z :=
  match getsize w path with
  | Size n => ret (Z.of_N n)
  | OSError msg => raise (Exception msg)
  end.

Definition _get_file_size (w : env) (path : string) : M string :=
  try_except
    (if isfile w path then
       size_bytes <- os_getsize w path ;;
       match size_loop units (NInt size_bytes) with
       | Some s => ret s
       | None => ret "N/A (directory)"
       end
     else ret "N/A (directory)")
    (fun e =>
       log ERROR ("Error getting file size: " ++ e) ;;;
       ret "Unknown").

Definition priority_map : gmap string Z :=
  <["min" := 1]> (<["low" := 2]> (<["default" := 3]>
    (<["high" := 4]> (<["urgent" := 5]> ∅)))).

Definition set_if (c : bool) (k : string) (v : jval)
  (payload : gmap string jval) : gmap string jval :=
  if c then <[k := v]> payload else payload.

Definition set_priority (priority : priority_arg)
  (payload : gmap string jval) : gmap string jval :=
  if truthy_priority priority then
    match priority with
    | PName s =>
        match priority_map !! s with
        | Some n => <["priority" := JInt n]> payload
        | None => payload
        end
    | PInt n => <["priority" := JInt n]> payload
    | PNone => payload
    end
  else payload.

(** The dictionary [send_notification] hands to [json.dumps]. *)
Definition build_payload (self : handler) (message : string)
  (title : option string) (priority : priority_arg)
  (tags click attach actions : option string) : gmap string jval :=
  let payload := <["message" := JStr message]>
                   (<["topic" := JStr (topic self)]> ∅) in
  let payload := set_if (truthy_str title) "title"
                   (JStr (default "" title)) payload in
  let payload := set_priority priority payload in
  let payload := set_if (truthy_str tags) "tags"
                   (JList [JStr (default "" tags)]) payload in
  let payload := set_if (truthy_str click) "click"
                   (JStr (default "" click)) payload in
  let payload := set_if (truthy_str attach) "attach"
                   (JStr (default "" attach)) payload in
  set_if (truthy_str actions) "actions" (JStr (default "" actions)) payload.

(** [requests.post(url, data=json.dumps(payload))]: one request, whose
    answer is the environment's; returns the status code. *)
Definition requests_post (w : env) (url : string)
  (payload : gmap string jval) : M Z :=
  fun s =>
    let s' := (s ++ [Post url payload])%list in
    match net w (sent s) with
    | Status code => (Ret code, s')
    | TransportError msg => (Raise (Exception msg), s')
    end.

(** [f"{title}"]. *)
Definition fmt_opt (o : option string) : string := default "None" o.

Definition send_notification (w : env) (self : handler) (message : string)
  (title : option string) (priority : priority_arg)
  (tags click attach actions : option string) : M unit :=
  let url := "https://ntfy.sh" in
  let payload := build_payload self message title priority tags click
                   attach actions in
  try_except
    (status_code <- requests_post w url payload ;;
     if status_code =? 200
     then log DEBUG ("Notification sent: " ++ fmt_opt title)
     else log ERROR ("Failed to send notification: " ++ str_of_Z status_code))
    (fun e => log ERROR ("Error sending notification: " ++ e)).

(** [__init__]. *)
Definition init (w : env) (topic : string)
  (include_extensions : option (list string)) (exclude_directories : bool)
  : M handler :=
  let self := mkHandler topic include_extensions exclude_directories in
  send_notification w self "Started monitoring folder for changes"
    (Some "Folder Monitoring Started") (PInt 3) (Some "rocket")
    None None None ;;;
  log INFO ("Started monitoring. Notifications will be sent to topic: "
            ++ topic) ;;;
  (if truthy_list include_extensions
   then log INFO ("Monitoring only these extensions: "
                  ++ join ", " (default [] include_extensions))
   else ret tt) ;;;
  ret self.

Definition nl : string := String (ascii_of_nat 10) "".

Definition on_created (w : env) (self : handler) (e : event) : M unit :=
  if negb (should_process_event self e) then ret tt
  else
    let path := src_path e in
    let filename := basename path in
    file_size <- _get_file_size w path ;;
    log INFO ("Created: " ++ path) ;;;
    send_notification w self
      ("File created: " ++ filename ++ nl ++ "Location: " ++ path ++ nl
       ++ "Size: " ++ file_size ++ nl ++ "Time: " ++ now w)
      (Some "File Created") (PInt 3) (Some "file_folder,new")
      None None None.

Definition on_modified (w : env) (self : handler) (e : event) : M unit :=
  if negb (should_process_event self e) then ret tt
  else
    let path := src_path e in
    let filename := basename path in
    file_size <- _get_file_size w path ;;
    log INFO ("Modified: " ++ path) ;;;
    send_notification w self
      ("File modified: " ++ filename ++ nl ++ "Location: " ++ path ++ nl
       ++ "Size: " ++ file_size ++ nl ++ "Time: " ++ now w)
      (Some "File Modified") (PInt 2) (Some "pencil")
      None None None.

Definition on_deleted (w : env) (self : handler) (e : event) : M unit :=
  if negb (should_process_event self e) then ret tt
  else
    let path := src_path e in
    let filename := basename path in
    log INFO ("Deleted: " ++ path) ;;;
    send_notification w self
      ("File deleted: " ++ filename ++ nl ++ "Location: " ++ path ++ nl
       ++ "Time: " ++ now w)
      (Some "File Deleted") (PInt 4) (Some "wastebasket,warning")
      None None None.

(** The title expression of [on_moved]. *)
Definition moved_title (src_path dest_path : string) : string :=
  let src_filename := basename src_path in
  let dest_filename := basename dest_path in
  if String.eqb (rsplit1_head "/" src_path) (rsplit1_head "/" dest_path)
  then "File Renamed: " ++ src_filename ++ " → " ++ dest_filename
  else "File Moved".

Definition on_moved (w : env) (self : handler) (e : event) : M unit :=
  if negb (should_process_event self e) then ret tt
  else
    let src_path := src_path e in
    let dest_path := dest_path e in
    log INFO ("Moved: " ++ src_path ++ " -> " ++ dest_path) ;;;
    send_notification w self
      ("File moved:" ++ nl ++ "From: " ++ src_path ++ nl ++ "To: "
       ++ dest_path ++ nl ++ "Time: " ++ now w)
      (Some (moved_title src_path dest_path)) (PInt 3) (Some "arrow_right")
      None None None.

(** [FileSystemEventHandler.dispatch]: the callback the watch facility
    invokes, which selects the method by the kind of the event. *)
Definition dispatch (w : env) (self : handler) (e : event) : M unit :=
  match event_kind e with
  | Created => on_created w self e
  | Modified => on_modified w self e
  | Deleted => on_deleted w self e
  | Moved => on_moved w self e
  end.

(** The watch facility delivers the events one after the other; an
    exception escaping a callback would end the delivery. *)
Fixpoint deliver (w : env) (self : handler) (es : list event) : M unit :=
  match es with
  | [] => ret tt
  | e :: rest => dispatch w self e ;;; deliver w self rest
  end.

End FileChangeHandler.

(** ** [main] *)

Module Main.
Import PyStr OsPath FileChangeHandler.

(** The parsed command line. *)
Record args := mkArgs {
  path : string;
  topic : string;
  extensions : option string;
  include_directories : bool;
  recursive : bool
}.

(** One element of the list comprehension over [--extensions]. *)
Definition normalize_extension (ext : string) : string :=
  if startswith_char "." (strip ext)
  then lower (strip ext)
  else "." ++ lower (strip ext).

(** [f"{b}"] for a [bool]. *)
Definition fmt_bool (b : bool) : string := if b then "True" else "False".

(** [while True: time.sleep(1)], interrupted after [n] sleeps. *)
Fixpoint idle_loop (n : nat) : M unit :=
  match n with
  | O => raise KeyboardInterrupt
  | S n' => emit Sleep ;;; idle_loop n'
  end.

(** What the observer thread does between [observer.start()] and the
    interruption: it delivers the events of the run to the handler.  An
    exception there stays in that thread.  The thread runs beside the
    main one; the model places its effects before the sleeps, where the
    program may place them anywhere from [observer.start()] to
    [observer.join()]. *)
Definition observer_thread (body : M unit) : M unit :=
  fun s => (Ret tt, snd (body s)).

Definition main (w : env) (a : args) : M unit :=
  (if negb (path_exists w (path a)) then
     log ERROR ("The specified path does not exist: " ++ path a) ;;;
     raise (SystemExit 1)
   else ret tt) ;;;
  let include_extensions :=
    if truthy_str (extensions a)
    then Some (map normalize_extension (split "," (default "" (extensions a))))
    else None in
  event_handler <- init w (topic a) include_extensions
                     (negb (include_directories a)) ;;
  emit (ObserverSchedule (path a) (recursive a)) ;;;
  emit ObserverStart ;;;
  log INFO ("Monitoring folder: " ++ abspath w (path a) ++ " (recursive: "
            ++ fmt_bool (recursive a) ++ ")") ;;;
  try_except_interrupt
    (observer_thread (deliver w event_handler (arrivals w)) ;;;
     idle_loop (interrupt_after w))
    (log INFO "Monitoring stopped by user" ;;;
     send_notification w event_handler "Folder monitoring stopped by user"
       (Some "Monitoring Stopped") (PInt 3) (Some "stop_sign")
       None None None ;;;
     emit ObserverStop) ;;;
  emit ObserverJoin.

(** The exit status of the interpreter for the outcome of [main()]. *)
Definition exit_status (r : result unit) : Z :=
  match r with
  | Ret _ => 0
  | Raise (SystemExit code) => code
  | Raise KeyboardInterrupt => 130
  | Raise (Exception _) => 1
  end.

Definition initial : state := [].

(** One run of the program: its exit status and its effects. *)
Definition run (w : env) (a : args) : Z * list effect :=
  let '(r, s) := main w a initial in (exit_status r, s).

End Main.

(** * Reference definitions

    The closed forms the program is compared with. *)

Module Spec.
Import PyStr OsPath PyNum FileChangeHandler.

(** The extension in the words of the specification: the text from the
    last dot of the base file name on, empty when it has no dot. *)
Definition spec_extension (p : string) : string :=
  let b := basename p in
  let d := rfind "." b in
  if d <? 0 then "" else slice_from d b.

(** The filter in the words of the specification, over a given notion
    of extension. *)
Definition shouldProcess (extension : string -> string)
  (self : handler) (e : event) : bool :=
  if exclude_directories self && is_directory e then false
  else if truthy_list (include_extensions self) && negb (is_directory e)
  then mem (lower (extension (src_path e)))
         (default [] (include_extensions self))
  else true.

Fixpoint all_dots (s : string) : bool :=
  match s with
  | EmptyString => true
  | String a s' => Ascii.eqb a "." && all_dots s'
  end.

(** The extension as [os.path.splitext] yields it: as [spec_extension],
    except that a base name with nothing but dots before its last dot
    has none. *)
Definition splitext_extension (p : string) : string :=
  let b := basename p in
  let d := rfind "." b in
  if (d <? 0) || all_dots (slice_to d b) then "" else slice_from d b.

(** Index of the unit of a size: the first of B, KB, MB, GB under whose
    threshold the size lies, TB otherwise. *)
Definition unit_index (n : N) : nat :=
  if (n <? 1024)%N then 0
  else if (n <? 1024 ^ 2)%N then 1
  else if (n <? 1024 ^ 3)%N then 2
  else if (n <? 1024 ^ 4)%N then 3
  else 4.

(** The size divided [k] times by 1024.  A size of more than 53 bits is
    first rounded to the nearest double, as the first division does. *)
Definition scaled (n : N) (k : nat) : Q :=
  round53 (Z.of_N n) # Z.to_pos (1024 ^ Z.of_nat k).

Definition human_size (n : N) : string :=
  let k := unit_index n in
  format_2f_Q (scaled n k) ++ " " ++ nth k units "".

(** What [_get_file_size] answers and logs in a given environment. *)
Definition file_size_text (w : env) (path : string) : string :=
  if isfile w path then
    match getsize w path with
    | Size n => human_size n
    | OSError _ => "Unknown"
    end
  else "N/A (directory)".

Definition file_size_log (w : env) (path : string) : list effect :=
  if isfile w path then
    match getsize w path with
    | Size _ => []
    | OSError msg => [Log ERROR ("Error getting file size: " ++ msg)]
    end
  else [].

(** The log record that follows a request, by its outcome. *)
Definition delivery_log (o : net_outcome) (title : option string) : effect :=
  match o with
  | Status code =>
      if code =? 200
      then Log DEBUG ("Notification sent: " ++ fmt_opt title)
      else Log ERROR ("Failed to send notification: " ++ str_of_Z code)
  | TransportError msg => Log ERROR ("Error sending notification: " ++ msg)
  end.

(** The payloads of the requests of a trace, oldest first. *)
Fixpoint payloads (tr : list effect) : list (gmap string jval) :=
  match tr with
  | [] => []
  | Post _ payload :: rest => payload :: payloads rest
  | _ :: rest => payloads rest
  end.

(** A trace all of whose requests are on the given topic. *)
Definition on_topic (t : string) (tr : list effect) : Prop :=
  Forall (fun payload : gmap string jval => payload !! "topic" = Some (JStr t))
    (payloads tr).

(** Title, priority and tag string of the notification for an event,
    by its kind. *)
Definition event_fields (e : event) : string * Z * string :=
  match event_kind e with
  | Created => ("File Created", 3, "file_folder,new")
  | Modified => ("File Modified", 2, "pencil")
  | Deleted => ("File Deleted", 4, "wastebasket,warning")
  | Moved => (moved_title (src_path e) (dest_path e), 3, "arrow_right")
  end.

(** The tags a payload field names: the parts of the one string of its
    list, split at the commas. *)
Definition tag_names (field : option jval) : list string :=
  match field with
  | Some (JList [JStr s]) => split "," s
  | _ => []
  end.

(** A run used for examples: every path is a regular file of 1536
    bytes, the relay answers 200, one file is created under the watched
    folder and the operator interrupts after two sleeps. *)
Definition sample_event : event :=
  mkEvent Created "/watched/report.pdf" "" false.

Definition sample_env : env :=
  mkEnv (fun _ => true) (fun _ => true) (fun _ => Size 1536) (fun p => p)
    "2024-01-01 00:00:00" (fun _ => Status 200) [sample_event] 2.

Definition sample_handler : handler := mkHandler "alerts" (Some [".pdf"]) true.

Definition sample_args : Main.args :=
  Main.mkArgs "/watched" "alerts" (Some "PDF") false false.

(** The names [priority_map] knows. *)
Definition priority_names : list string :=
  ["urgent"; "high"; "default"; "low"; "min"].

End Spec.

(** * The configuration [main] builds *)

Module Config.
Import PyStr OsPath FileChangeHandler.

(** The allow-list [main] computes from [--extensions]. *)
Definition configured_extensions (a : Main.args) : option (list string) :=
  if truthy_str (Main.extensions a)
  then Some (map Main.normalize_extension
               (split "," (default "" (Main.extensions a))))
  else None.

(** The handler [main] constructs from the command line. *)
Definition configured_handler (a : Main.args) : handler :=
  mkHandler (Main.topic a) (configured_extensions a)
    (negb (Main.include_directories a)).

(** The effects of the observer. *)
Definition is_observer (e : effect) : bool :=
  match e with
  | ObserverSchedule _ _ | ObserverStart | ObserverStop | ObserverJoin => true
  | _ => false
  end.

(** The keys [send_notification] may put in a payload. *)
Definition payload_keys : list string :=
  ["topic"; "message"; "title"; "priority"; "tags"; "click"; "attach";
   "actions"].

(** The sample environment with a size lookup that fails. *)
Definition failing_size_env : env :=
  mkEnv (fun _ => true) (fun _ => true) (fun _ => OSError "gone") (fun p => p)
    "2024-01-01 00:00:00" (fun _ => Status 200) [Spec.sample_event] 2.

End Config.

(** * Properties *)

(** ** The event filter *)

Module FilterProofs.
Import PyStr OsPath FileChangeHandler Spec.

Lemma rfind_lower_bound (c : ascii) (s : string) : -1 <= rfind c s.
Proof.
  induction s as [|a s IH]; simpl; [lia|].
  destruct (0 <=? rfind c s) eqn:E; [lia|].
  destruct (Ascii.eqb a c); lia.
Qed.

Lemma rfind_upper_bound (c : ascii) (s : string) :
  rfind c s < Z.of_nat (String.length s).
Proof.
  induction s as [|a s IH]; simpl String.length; simpl rfind; [lia|].
  destruct (0 <=? rfind c s) eqn:E; [lia|].
  destruct (Ascii.eqb a c); lia.
Qed.

(** The last occurrence in a suffix is the last occurrence in the
    whole; when the suffix has none, the last occurrence lies before
    the suffix. *)
Lemma rfind_str_drop (c : ascii) (n : nat) :
  forall s : string,
    let r := rfind c (str_drop n s) in
    if 0 <=? r then rfind c s = Z.of_nat n + r
    else rfind c s < Z.of_nat n.
Proof.
  induction n as [|n IH]; intros s; cbv zeta.
  - simpl. destruct (0 <=? rfind c s) eqn:E; lia.
  - destruct s as [|a s].
    + simpl. lia.
    + specialize (IH s). cbv zeta in IH. simpl str_drop. simpl rfind.
      destruct (0 <=? rfind c (str_drop n s)) eqn:E.
      * rewrite IH. apply Z.leb_le in E.
        replace (0 <=? Z.of_nat n + rfind c (str_drop n s)) with true
          by (symmetry; apply Z.leb_le; lia).
        lia.
      * destruct (0 <=? rfind c s) eqn:E'; [lia|].
        destruct (Ascii.eqb a c); lia.
Qed.

Lemma str_drop_add (n m : nat) :
  forall s : string, str_drop (n + m) s = str_drop m (str_drop n s).
Proof.
  induction n as [|n IH]; intros s; [reflexivity|].
  destruct s as [|a s]; simpl.
  - destruct m; reflexivity.
  - apply IH.
Qed.

Lemma str_drop_cons (n : nat) :
  forall (s t : string) (a : ascii),
    str_drop n s = String a t -> str_drop (S n) s = t.
Proof.
  induction n as [|n IH]; intros s t a H.
  - simpl in H. subst s. reflexivity.
  - destruct s as [|b s]; [discriminate|].
    simpl in H. apply IH in H. exact H.
Qed.

Lemma str_drop_nonempty (n : nat) :
  forall s : string,
    (n < String.length s)%nat -> exists a t, str_drop n s = String a t.
Proof.
  induction n as [|n IH]; intros s H.
  - destruct s as [|a s]; [simpl in H; lia|]. eauto.
  - destruct s as [|a s]; simpl in H; [lia|].
    apply IH. lia.
Qed.

(** The loop answers with the split exactly when a character other
    than a dot stands between [filenameIndex] and [dotIndex]. *)
Lemma splitext_loop_snd (p : string) (dotIndex : Z) :
  dotIndex < Z.of_nat (String.length p) ->
  forall (fuel k : nat) (filenameIndex : Z),
    0 <= filenameIndex ->
    dotIndex - filenameIndex = Z.of_nat k ->
    (k < fuel)%nat ->
    snd (splitext_loop fuel p filenameIndex dotIndex)
    = if all_dots (str_take k (slice_from filenameIndex p))
      then "" else slice_from dotIndex p.
Proof.
  intros Hlen fuel.
  induction fuel as [|fuel IH]; intros k fi Hfi Hk Hfuel; [lia|].
  simpl splitext_loop.
  destruct k as [|k].
  - replace (fi <? dotIndex) with false by (symmetry; apply Z.ltb_ge; lia).
    reflexivity.
  - replace (fi <? dotIndex) with true by (symmetry; apply Z.ltb_lt; lia).
    destruct (str_drop_nonempty (Z.to_nat fi) p) as (a & t & Hd); [lia|].
    unfold char_at, slice_from. rewrite Hd. simpl str_take. simpl all_dots.
    destruct (Ascii.eqb_spec a ".") as [->|Hne].
    + simpl. rewrite (IH k (fi + 1)) by lia.
      unfold slice_from.
      replace (Z.to_nat (fi + 1)) with (S (Z.to_nat fi)) by lia.
      rewrite (str_drop_cons _ _ _ _ Hd). reflexivity.
    + replace (String.eqb (String a "") ".") with false.
      * reflexivity.
      * symmetry. apply String.eqb_neq. congruence.
Qed.

(** [os.path.splitext] yields the extension described above. *)
Lemma splitext_snd (p : string) : snd (splitext p) = splitext_extension p.
Proof.
  unfold splitext, splitext_extension, basename.
  set (sep := rfind "/" p). set (dot := rfind "." p).
  assert (Hsep : -1 <= sep) by apply rfind_lower_bound.
  assert (Hdot : dot < Z.of_nat (String.length p)) by apply rfind_upper_bound.
  pose proof (rfind_str_drop "." (Z.to_nat (sep + 1)) p) as H.
  cbv zeta in H. fold dot in H. unfold slice_from at 1 2.
  set (b := str_drop (Z.to_nat (sep + 1)) p) in *.
  set (d := rfind "." b) in *.
  destruct (0 <=? d) eqn:Ed.
  - apply Z.leb_le in Ed.
    replace (sep <? dot) with true by (symmetry; apply Z.ltb_lt; lia).
    replace (d <? 0) with false by (symmetry; apply Z.ltb_ge; lia).
    rewrite (splitext_loop_snd p dot Hdot _ (Z.to_nat d)) by lia.
    unfold slice_from, slice_to. fold b. simpl orb.
    replace (Z.to_nat dot) with (Z.to_nat (sep + 1) + Z.to_nat d)%nat by lia.
    rewrite str_drop_add. reflexivity.
  - apply Z.leb_gt in Ed.
    replace (sep <? dot) with false by (symmetry; apply Z.ltb_ge; lia).
    replace (d <? 0) with true by (symmetry; apply Z.ltb_lt; lia).
    reflexivity.
Qed.

(** The two extensions agree on every path whose base name has a
    character other than a dot before its last dot, or no dot. *)
Lemma splitext_extension_spec (p : string) :
  all_dots (slice_to (rfind "." (basename p)) (basename p)) = false ->
  splitext_extension p = spec_extension p.
Proof.
  unfold splitext_extension, spec_extension. intros ->.
  rewrite orb_false_r. reflexivity.
Qed.

(** C1 (as stated, refuted): with the allow-list [[".txt"]] the file
    [/x/.txt] has the extension [.txt] in the words of the claim, which
    accepts it; the program rejects it. *)
Lemma should_process_event_dotfile_counterexample :
  let self := mkHandler "t" (Some [".txt"]) true in
  let e := mkEvent Created "/x/.txt" "" false in
  spec_extension (src_path e) = ".txt"
  /\ shouldProcess spec_extension self e = true
  /\ should_process_event self e = false.
Proof. repeat split; vm_compute; reflexivity. Qed.

(** C1 (amended): [should_process_event] rejects every directory event
    when [exclude_directories] is set; otherwise, for a file event under
    a non-empty allow-list, it accepts exactly when the lower-cased
    extension is in the list, the extension being the text from the last
    dot of the base name on, and empty when the base name has no dot or
    only dots before its last dot; it accepts in every other case.  It
    is a total function to [bool]. *)
Theorem should_process_event_spec (self : handler) (e : event) :
  should_process_event self e = shouldProcess splitext_extension self e.
Proof.
  unfold should_process_event, shouldProcess.
  rewrite splitext_snd.
  destruct (exclude_directories self && is_directory e); [reflexivity|].
  destruct (truthy_list (include_extensions self) && negb (is_directory e));
    [|reflexivity].
  destruct (mem _ _); reflexivity.
Qed.

(** C9: the filter never reads the destination of a move: two moved
    events with the same source and directory flag get the same answer;
    under a non-empty allow-list a moved file is accepted exactly when
    the extension of its source is listed, so that [a.md] moved to
    [a.txt] is rejected and [a.txt] moved to [a.md] is accepted when only
    [.txt] is listed. *)
Theorem moved_filter_uses_source (self : handler) (src dest dest' : string)
  (isdir : bool) :
  should_process_event self (mkEvent Moved src dest isdir)
  = should_process_event self (mkEvent Moved src dest' isdir)
  /\ (forall (t : string) (excl : bool) (x : string) (xs : list string),
        should_process_event (mkHandler t (Some (x :: xs)) excl)
          (mkEvent Moved src dest false)
        = mem (lower (snd (splitext src))) (x :: xs))
  /\ should_process_event (mkHandler "t" (Some [".txt"]) true)
       (mkEvent Moved "/w/a.md" "/w/a.txt" false) = false
  /\ should_process_event (mkHandler "t" (Some [".txt"]) true)
       (mkEvent Moved "/w/a.txt" "/w/a.md" false) = true.
Proof.
  split; [reflexivity|]. split; [|split; reflexivity].
  intros t excl x xs. unfold should_process_event.
  cbn [exclude_directories is_directory include_extensions src_path
       truthy_list negb andb default].
  rewrite andb_false_r.
  destruct (mem _ _); reflexivity.
Qed.

End FilterProofs.

(** ** The size formatter *)

Module SizeProofs.
Import PyStr OsPath PyNum FileChangeHandler Spec.

Lemma round53_exact (n : Z) : n < 2 ^ 53 -> round53 n = n.
Proof.
  intros H. unfold round53.
  replace (n <? 2 ^ 53) with true by (symmetry; apply Z.ltb_lt; exact H).
  reflexivity.
Qed.

(** Rounding to 53 bits never takes a size of at least [2^53] below
    [2^52]. *)
Lemma round53_large (n : Z) : 2 ^ 53 <= n -> 2 ^ 52 <= round53 n.
Proof.
  intros H. unfold round53.
  replace (n <? 2 ^ 53) with false by (symmetry; apply Z.ltb_ge; exact H).
  cbv zeta.
  assert (Hn : 0 < n) by lia.
  pose proof (Z.log2_spec n Hn) as [Hlo _].
  assert (Hlog : 53 <= Z.log2 n).
  { apply Z.log2_le_pow2; [lia|exact H]. }
  set (e := Z.log2 n - 52) in *.
  assert (He : 0 < e) by lia.
  assert (Hpow : 0 < 2 ^ e) by (apply Z.pow_pos_nonneg; lia).
  assert (Hq : 2 ^ 52 <= Z.shiftr n e).
  { rewrite Z.shiftr_div_pow2 by lia.
    apply Z.div_le_lower_bound; [exact Hpow|].
    rewrite <- Z.pow_add_r by lia.
    replace (e + 52) with (Z.log2 n) by (unfold e; lia). exact Hlo. }
  rewrite Z.shiftl_mul_pow2 by lia.
  destruct ((2 ^ (e - 1) <? n mod 2 ^ e)
            || (n mod 2 ^ e =? 2 ^ (e - 1)) && Z.odd (Z.shiftr n e)); nia.
Qed.

Lemma Qdiv_1024 (a : Z) (b : positive) :
  ((a # b) / 1024)%Q = (a * 1 # b * 1024).
Proof. reflexivity. Qed.

Lemma format_2f_small (n : Z) :
  0 <= n < 2 ^ 53 -> format_2f (NInt n) = format_2f_Q (n # 1).
Proof.
  intros H. unfold format_2f.
  rewrite round53_exact by lia.
  replace (Z.sgn n * Z.abs n) with n by lia. reflexivity.
Qed.

Lemma Qltb_1024 (a : Z) (b : positive) :
  Qltb (a # b) 1024 = (a <? 1024 * Zpos b).
Proof. unfold Qltb. simpl Qnum. simpl Qden. rewrite Z.mul_1_r. reflexivity. Qed.

Lemma round53_lower (z : Z) : 2 ^ 40 <= z -> 2 ^ 40 <= round53 z.
Proof.
  intros H. destruct (Z.lt_ge_cases z (2 ^ 53)) as [Hlt|Hge].
  - rewrite round53_exact by exact Hlt. exact H.
  - pose proof (round53_large z Hge). lia.
Qed.

Ltac decide_ltb :=
  repeat match goal with
  | |- context [?a <? ?b] =>
      first
        [ replace (a <? b) with true by (symmetry; apply Z.ltb_lt; lia)
        | replace (a <? b) with false by (symmetry; apply Z.ltb_ge; lia) ]
  end.

(** The loop over the units yields the closed form. *)
Lemma size_loop_human (n : N) :
  size_loop units (NInt (Z.of_N n)) = Some (human_size n).
Proof.
  set (z := Z.of_N n).
  assert (Hz : 0 <= z) by (unfold z; lia).
  unfold human_size, unit_index, scaled. fold z.
  unfold units. cbn [size_loop truediv_1024 lt_1024].
  rewrite !Qdiv_1024, !Qltb_1024, !Z.mul_1_r.
  change ("B" =? "TB")%string with false.
  change ("KB" =? "TB")%string with false.
  change ("MB" =? "TB")%string with false.
  change ("GB" =? "TB")%string with false.
  change ("TB" =? "TB")%string with true.
  rewrite !orb_false_r, orb_true_r.
  destruct (N.ltb_spec n 1024) as [L0|L0].
  { assert (z < 1024) by (unfold z; lia).
    decide_ltb. rewrite format_2f_small by lia.
    rewrite round53_exact by lia. reflexivity. }
  assert (1024 <= z) by (unfold z; lia).
  destruct (N.ltb_spec n (1024 ^ 2)) as [L1|L1].
  { assert (z < 1024 ^ 2) by (unfold z; lia).
    rewrite (round53_exact z) by lia. decide_ltb. reflexivity. }
  assert (1024 ^ 2 <= z) by (unfold z; lia).
  destruct (N.ltb_spec n (1024 ^ 3)) as [L2|L2].
  { assert (z < 1024 ^ 3) by (unfold z; lia).
    rewrite (round53_exact z) by lia. decide_ltb. reflexivity. }
  assert (1024 ^ 3 <= z) by (unfold z; lia).
  destruct (N.ltb_spec n (1024 ^ 4)) as [L3|L3].
  { assert (z < 1024 ^ 4) by (unfold z; lia).
    rewrite (round53_exact z) by lia. decide_ltb. reflexivity. }
  assert (2 ^ 40 <= z) by (unfold z; lia).
  pose proof (round53_lower z ltac:(assumption)).
  decide_ltb. reflexivity.
Qed.

Lemma get_file_size_run (w : env) (path : string) (s : state) :
  _get_file_size w path s
  = (Ret (file_size_text w path), (s ++ file_size_log w path)%list).
Proof.
  unfold _get_file_size, file_size_text, file_size_log, try_except,
    os_getsize, bind.
  destruct (isfile w path).
  - destruct (getsize w path) as [n|msg].
    + unfold ret. rewrite size_loop_human, app_nil_r. reflexivity.
    + reflexivity.
  - unfold ret. rewrite app_nil_r. reflexivity.
Qed.

(** C3: for a regular file of [n] bytes [_get_file_size] answers with
    [n] divided by 1024 as often as the unit says, in the [.2f] format,
    followed by the unit, which is the first of B, KB, MB, GB below whose
    threshold the size lies and TB otherwise; 0 bytes give ["0.00 B"],
    1536 bytes ["1.50 KB"] and 1073741824 bytes ["1.00 GB"].  For a path
    that is not a regular file the answer is ["N/A (directory)"]; when
    the size lookup raises, the answer is ["Unknown"], the error is
    logged and nothing is raised. *)
Theorem get_file_size_spec (w : env) (path : string) (s : state) :
  _get_file_size w path s
  = (if isfile w path then
       match getsize w path with
       | Size n =>
           (Ret (format_2f_Q (scaled n (unit_index n)) ++ " "
                 ++ nth (unit_index n) ["B"; "KB"; "MB"; "GB"; "TB"] ""), s)
       | OSError msg =>
           (Ret "Unknown",
            (s ++ [Log ERROR ("Error getting file size: " ++ msg)])%list)
       end
     else (Ret "N/A (directory)", s))
  /\ (forall n : N, (n < 2 ^ 53)%N ->
        forall k : nat,
          (scaled n k == (Z.of_N n # 1) / (1024 ^ Z.of_nat k # 1))%Q)
  /\ human_size 0 = "0.00 B"
  /\ human_size 1536 = "1.50 KB"
  /\ human_size 1073741824 = "1.00 GB".
Proof.
  split; [|split; [|repeat split; vm_compute; reflexivity]].
  - rewrite get_file_size_run.
    unfold file_size_text, file_size_log.
    destruct (isfile w path); [|rewrite app_nil_r; reflexivity].
    destruct (getsize w path); [rewrite app_nil_r|]; reflexivity.
  - intros n Hn k. unfold scaled.
    rewrite round53_exact by lia.
    assert (Hp : 0 < 1024 ^ Z.of_nat k) by (apply Z.pow_pos_nonneg; lia).
    unfold Qeq, Qdiv, Qinv, Qmult. simpl Qnum. simpl Qden.
    destruct (1024 ^ Z.of_nat k) as [|p|p] eqn:E; try lia.
    simpl. lia.
Qed.
(** The theorem at a file of 1536 bytes, in kilobytes. *)
Lemma get_file_size_spec_witness :
  (1536 < 2 ^ 53)%N /\ (scaled 1536 1 == (1536 # 1) / (1024 # 1))%Q.
Proof.
  split; [reflexivity|].
  apply (proj1 (proj2 (get_file_size_spec sample_env "f" []))).
  reflexivity.
Defined.

End SizeProofs.

(** ** The notifier *)

Module NotifierProofs.
Import PyStr OsPath PyNum FileChangeHandler Spec.

Lemma payloads_app (tr tr' : list effect) :
  payloads (tr ++ tr') = (payloads tr ++ payloads tr')%list.
Proof.
  induction tr as [|e tr IH]; [reflexivity|].
  destruct e; simpl; rewrite IH; reflexivity.
Qed.

Lemma sent_payloads (s : state) : sent s = length (payloads s).
Proof.
  unfold sent. induction s as [|e s IH]; [reflexivity|].
  destruct e; simpl; rewrite ?IH; reflexivity.
Qed.

(** What one call of [send_notification] does: one request carrying
    [build_payload], one log record, and a normal return. *)
Lemma send_notification_run (w : env) (self : handler) (message : string)
  (title : option string) (priority : priority_arg)
  (tags click attach actions : option string) (s : state) :
  send_notification w self message title priority tags click attach actions s
  = (Ret tt,
     (s ++ [Post "https://ntfy.sh"
              (build_payload self message title priority tags click attach
                 actions);
            delivery_log (net w (sent s)) title])%list).
Proof.
  unfold send_notification, try_except, bind, requests_post, delivery_log, log,
    emit.
  destruct (net w (sent s)) as [code|msg].
  - destruct (code =? 200); rewrite <- app_assoc; reflexivity.
  - rewrite <- app_assoc; reflexivity.
Qed.

Lemma lookup_set_if_ne (c : bool) (k k' : string) (v : jval)
  (m : gmap string jval) :
  k ≠ k' -> set_if c k v m !! k' = m !! k'.
Proof.
  intros H. unfold set_if. destruct c; [|reflexivity].
  apply lookup_insert_ne. exact H.
Qed.

Lemma lookup_set_if_eq (c : bool) (k : string) (v : jval)
  (m : gmap string jval) :
  set_if c k v m !! k = if c then Some v else m !! k.
Proof.
  unfold set_if. destruct c; [|reflexivity]. apply lookup_insert_eq.
Qed.

Lemma lookup_set_priority_ne (p : priority_arg) (k : string)
  (m : gmap string jval) :
  "priority" ≠ k -> set_priority p m !! k = m !! k.
Proof.
  intros H. unfold set_priority.
  destruct (truthy_priority p); [|reflexivity].
  destruct p as [|name|n]; [reflexivity| |].
  - destruct (priority_map !! name); [|reflexivity].
    apply lookup_insert_ne. exact H.
  - apply lookup_insert_ne. exact H.
Qed.

Lemma lookup_insert_same (k : string) (v : jval) (m : gmap string jval) :
  <[k := v]> m !! k = Some v.
Proof. apply lookup_insert_eq. Qed.

Lemma lookup_insert_other (k k' : string) (v : jval) (m : gmap string jval) :
  k ≠ k' -> <[k := v]> m !! k' = m !! k'.
Proof. apply lookup_insert_ne. Qed.

Lemma lookup_nothing (k : string) : (∅ : gmap string jval) !! k = None.
Proof. apply lookup_empty. Qed.

Create Rewrite HintDb payload.

#[local] Hint Rewrite lookup_set_if_eq lookup_insert_same lookup_nothing
  : payload.
#[local] Hint Rewrite lookup_set_if_ne lookup_set_priority_ne
  lookup_insert_other using discriminate : payload.

Ltac payload_lookup := unfold build_payload; autorewrite with payload.

Lemma payload_topic (self : handler) (message : string)
  (title : option string) (priority : priority_arg)
  (tags click attach actions : option string) :
  build_payload self message title priority tags click attach actions
    !! "topic" = Some (JStr (topic self)).
Proof. payload_lookup. reflexivity. Qed.

Lemma payload_message (self : handler) (message : string)
  (title : option string) (priority : priority_arg)
  (tags click attach actions : option string) :
  build_payload self message title priority tags click attach actions
    !! "message" = Some (JStr message).
Proof. payload_lookup. reflexivity. Qed.

Lemma payload_title (self : handler) (message : string)
  (title : option string) (priority : priority_arg)
  (tags click attach actions : option string) :
  build_payload self message title priority tags click attach actions
    !! "title"
  = if truthy_str title then Some (JStr (default "" title)) else None.
Proof. payload_lookup. destruct (truthy_str title); reflexivity. Qed.

Lemma payload_tags (self : handler) (message : string)
  (title : option string) (priority : priority_arg)
  (tags click attach actions : option string) :
  build_payload self message title priority tags click attach actions
    !! "tags"
  = if truthy_str tags then Some (JList [JStr (default "" tags)]) else None.
Proof.
  payload_lookup. destruct (truthy_str tags); [reflexivity|].
  autorewrite with payload. destruct (truthy_str title);
    autorewrite with payload; reflexivity.
Qed.

Lemma payload_priority (self : handler) (message : string)
  (title : option string) (priority : priority_arg)
  (tags click attach actions : option string) :
  build_payload self message title priority tags click attach actions
    !! "priority"
  = set_priority priority ∅ !! "priority".
Proof.
  payload_lookup. unfold set_priority.
  destruct (truthy_priority priority);
    [destruct priority as [|name|n]; [| destruct (priority_map !! name) |]|];
    autorewrite with payload; try reflexivity;
    destruct (truthy_str title); autorewrite with payload; reflexivity.
Qed.

Lemma priority_map_unknown (name : string) :
  ~ In name priority_names -> priority_map !! name = None.
Proof.
  intros H. unfold priority_map.
  rewrite !lookup_insert_ne, lookup_empty; [reflexivity|..];
    intros <-; apply H; simpl; tauto.
Qed.

Lemma set_priority_unknown (name : string) (m : gmap string jval) :
  ~ In name priority_names -> set_priority (PName name) m = m.
Proof.
  intros H. unfold set_priority.
  rewrite (priority_map_unknown name H).
  destruct (truthy_priority (PName name)); reflexivity.
Qed.

(** The request of a call carries the payload built from its
    arguments. *)
Lemma posted_payload (w : env) (self : handler) (message : string)
  (title : option string) (priority : priority_arg)
  (tags click attach actions : option string) (s : state) :
  payloads
    (snd (send_notification w self message title priority tags click attach
            actions s))
  = (payloads s
       ++ [build_payload self message title priority tags click attach
             actions])%list.
Proof.
  rewrite send_notification_run. cbn [snd]. rewrite payloads_app.
  f_equal. unfold delivery_log.
  destruct (net w (sent s)) as [code|msg]; [destruct (code =? 200)|];
    reflexivity.
Qed.

(** C4: for every call of [send_notification] the one request it issues
    carries the payload built from the arguments, in which the named
    levels urgent, high, default, low and min give the priority 5, 4, 3,
    2 and 1 and an integer from 1 to 5 is the priority as it is; a name
    [priority_map] does not know leaves that payload without a priority,
    and the call is in every respect the one made without a priority. *)
Theorem priority_mapping (w : env) (self : handler) (message : string)
  (title tags click attach actions : option string) (s : state) :
  let sends (p : priority_arg) (v : option jval) :=
    payloads
      (snd (send_notification w self message title p tags click attach
              actions s))
    = (payloads s
         ++ [build_payload self message title p tags click attach
               actions])%list
    /\ build_payload self message title p tags click attach actions
         !! "priority" = v in
  sends (PName "urgent") (Some (JInt 5))
  /\ sends (PName "high") (Some (JInt 4))
  /\ sends (PName "default") (Some (JInt 3))
  /\ sends (PName "low") (Some (JInt 2))
  /\ sends (PName "min") (Some (JInt 1))
  /\ (forall n : Z, 1 <= n <= 5 -> sends (PInt n) (Some (JInt n)))
  /\ (forall name : string, ~ In name priority_names ->
        sends (PName name) None
        /\ send_notification w self message title (PName name) tags click
             attach actions s
           = send_notification w self message title PNone tags click
               attach actions s).
Proof.
  cbv beta zeta. rewrite !payload_priority.
  do 5 (split; [split; [apply posted_payload|vm_compute; reflexivity]|]).
  split.
  - intros n Hn. split; [apply posted_payload|].
    rewrite payload_priority. unfold set_priority, truthy_priority.
    replace (n =? 0) with false by (symmetry; apply Z.eqb_neq; lia).
    apply lookup_insert_same.
  - intros name Hname. split; [split; [apply posted_payload|]|].
    + rewrite payload_priority, set_priority_unknown by assumption.
      apply lookup_nothing.
    + unfold send_notification, build_payload.
      rewrite set_priority_unknown by assumption. reflexivity.
Qed.

(** The theorem at the integer 5 and at the unknown name [bogus], for a
    call in the sample environment. *)
Lemma priority_mapping_witness :
  (payloads
     (snd (send_notification sample_env sample_handler "m" None (PInt 5) None
             None None None []))
   = [build_payload sample_handler "m" None (PInt 5) None None None None]
   /\ build_payload sample_handler "m" None (PInt 5) None None None None
        !! "priority" = Some (JInt 5))
  /\ (payloads
        (snd (send_notification sample_env sample_handler "m" None
                (PName "bogus") None None None None []))
      = [build_payload sample_handler "m" None (PName "bogus") None None None
           None]
      /\ build_payload sample_handler "m" None (PName "bogus") None None None
           None !! "priority" = None).
Proof.
  pose proof (priority_mapping sample_env sample_handler "m" None None None
                None None []) as H.
  cbv beta zeta in H.
  destruct H as (_ & _ & _ & _ & _ & Hint & Hname).
  split.
  - apply Hint. lia.
  - apply Hname. simpl. intros [H|[H|[H|[H|[H|[]]]]]]; discriminate H.
Defined.

(** C10: an empty or absent title, empty or absent tags and a priority
    of [0] or [None] leave no key of theirs in the payload, which is the
    one the request carries; [topic] and [message] are always there. *)
Theorem falsy_fields_omitted (w : env) (self : handler) (message : string)
  (title : option string) (priority : priority_arg)
  (tags click attach actions : option string) (s : state) :
  let payload := build_payload self message in
  payloads
    (snd (send_notification w self message title priority tags click attach
            actions s))
  = (payloads s
       ++ [payload title priority tags click attach actions])%list
  /\ payload (Some "") priority tags click attach actions !! "title" = None
  /\ payload None priority tags click attach actions !! "title" = None
  /\ payload title priority (Some "") click attach actions !! "tags" = None
  /\ payload title priority None click attach actions !! "tags" = None
  /\ payload title (PInt 0) tags click attach actions !! "priority" = None
  /\ payload title PNone tags click attach actions !! "priority" = None
  /\ payload title priority tags click attach actions !! "topic"
     = Some (JStr (topic self))
  /\ payload title priority tags click attach actions !! "message"
     = Some (JStr message).
Proof.
  cbv beta zeta.
  rewrite send_notification_run. cbn [snd]. rewrite payloads_app.
  rewrite !payload_title, !payload_tags, !payload_priority, payload_topic,
    payload_message.
  split; [|repeat split].
  f_equal. unfold delivery_log.
  destruct (net w (sent s)) as [code|msg]; [destruct (code =? 200)|];
    reflexivity.
Qed.

Lemma sent_app (s s' : state) : sent (s ++ s')%list = (sent s + sent s')%nat.
Proof. unfold sent. rewrite List.filter_app, length_app. reflexivity. Qed.

Lemma sent_file_size_log (w : env) (path : string) :
  sent (file_size_log w path) = 0%nat.
Proof.
  unfold file_size_log.
  destruct (isfile w path); [destruct (getsize w path)|]; reflexivity.
Qed.

(** What the handlers do with an event: nothing when the filter rejects
    it, otherwise their log records and one request. *)
Lemma on_created_run (w : env) (self : handler) (e : event) (s : state) :
  on_created w self e s
  = (Ret tt,
     if should_process_event self e then
       (s ++ file_size_log w (src_path e)
          ++ [Log INFO ("Created: " ++ src_path e);
              Post "https://ntfy.sh"
                (build_payload self
                   ("File created: " ++ basename (src_path e) ++ nl
                    ++ "Location: " ++ src_path e ++ nl ++ "Size: "
                    ++ file_size_text w (src_path e) ++ nl ++ "Time: "
                    ++ now w)
                   (Some "File Created") (PInt 3) (Some "file_folder,new")
                   None None None);
              delivery_log (net w (sent s)) (Some "File Created")])%list
     else s).
Proof.
  unfold on_created.
  destruct (should_process_event self e); [|reflexivity].
  cbn [negb]. unfold bind. rewrite SizeProofs.get_file_size_run.
  unfold log, emit. rewrite send_notification_run.
  rewrite !sent_app, sent_file_size_log, !Nat.add_0_r.
  rewrite <- !app_assoc. reflexivity.
Qed.

Lemma on_modified_run (w : env) (self : handler) (e : event) (s : state) :
  on_modified w self e s
  = (Ret tt,
     if should_process_event self e then
       (s ++ file_size_log w (src_path e)
          ++ [Log INFO ("Modified: " ++ src_path e);
              Post "https://ntfy.sh"
                (build_payload self
                   ("File modified: " ++ basename (src_path e) ++ nl
                    ++ "Location: " ++ src_path e ++ nl ++ "Size: "
                    ++ file_size_text w (src_path e) ++ nl ++ "Time: "
                    ++ now w)
                   (Some "File Modified") (PInt 2) (Some "pencil")
                   None None None);
              delivery_log (net w (sent s)) (Some "File Modified")])%list
     else s).
Proof.
  unfold on_modified.
  destruct (should_process_event self e); [|reflexivity].
  cbn [negb]. unfold bind. rewrite SizeProofs.get_file_size_run.
  unfold log, emit. rewrite send_notification_run.
  rewrite !sent_app, sent_file_size_log, !Nat.add_0_r.
  rewrite <- !app_assoc. reflexivity.
Qed.

Lemma on_deleted_run (w : env) (self : handler) (e : event) (s : state) :
  on_deleted w self e s
  = (Ret tt,
     if should_process_event self e then
       (s ++ [Log INFO ("Deleted: " ++ src_path e);
              Post "https://ntfy.sh"
                (build_payload self
                   ("File deleted: " ++ basename (src_path e) ++ nl
                    ++ "Location: " ++ src_path e ++ nl ++ "Time: " ++ now w)
                   (Some "File Deleted") (PInt 4)
                   (Some "wastebasket,warning") None None None);
              delivery_log (net w (sent s)) (Some "File Deleted")])%list
     else s).
Proof.
  unfold on_deleted.
  destruct (should_process_event self e); [|reflexivity].
  cbn [negb]. unfold bind, log, emit. rewrite send_notification_run.
  rewrite !sent_app, !Nat.add_0_r.
  rewrite <- !app_assoc. reflexivity.
Qed.

Lemma on_moved_run (w : env) (self : handler) (e : event) (s : state) :
  on_moved w self e s
  = (Ret tt,
     if should_process_event self e then
       (s ++ [Log INFO ("Moved: " ++ src_path e ++ " -> " ++ dest_path e);
              Post "https://ntfy.sh"
                (build_payload self
                   ("File moved:" ++ nl ++ "From: " ++ src_path e ++ nl
                    ++ "To: " ++ dest_path e ++ nl ++ "Time: " ++ now w)
                   (Some (moved_title (src_path e) (dest_path e))) (PInt 3)
                   (Some "arrow_right") None None None);
              delivery_log (net w (sent s))
                (Some (moved_title (src_path e) (dest_path e)))])%list
     else s).
Proof.
  unfold on_moved.
  destruct (should_process_event self e); [|reflexivity].
  cbn [negb]. unfold bind, log, emit. rewrite send_notification_run.
  rewrite !sent_app, !Nat.add_0_r.
  rewrite <- !app_assoc. reflexivity.
Qed.

Lemma payloads_file_size_log (w : env) (path : string) :
  payloads (file_size_log w path) = [].
Proof.
  unfold file_size_log.
  destruct (isfile w path); [destruct (getsize w path)|]; reflexivity.
Qed.

Lemma payloads_delivery_log (o : net_outcome) (title : option string) :
  payloads [delivery_log o title] = [].
Proof.
  destruct o as [code|msg]; simpl; [destruct (code =? 200)|]; reflexivity.
Qed.

Lemma payloads_notification (l : level) (msg url : string)
  (payload : gmap string jval) (o : net_outcome) (title : option string) :
  payloads [Log l msg; Post url payload; delivery_log o title] = [payload].
Proof.
  destruct o as [code|m]; simpl; [destruct (code =? 200)|]; reflexivity.
Qed.

(** Every callback returns; it issues one request, with the fields of
    its kind, for an event the filter accepts and none otherwise. *)
Lemma dispatch_shape (w : env) (self : handler) (e : event) (s : state) :
  exists tr : list effect,
    dispatch w self e s = (Ret tt, (s ++ tr)%list)
    /\ if should_process_event self e then
         exists message : string,
           payloads tr
           = [build_payload self message (Some (fst (fst (event_fields e))))
                (PInt (snd (fst (event_fields e))))
                (Some (snd (event_fields e))) None None None]
       else tr = [].
Proof.
  unfold dispatch, event_fields.
  destruct (event_kind e);
    [rewrite on_created_run|rewrite on_modified_run|rewrite on_deleted_run
    |rewrite on_moved_run];
    (destruct (should_process_event self e);
     [|exists []; rewrite app_nil_r; split; reflexivity]);
    eexists; (split; [reflexivity|]); eexists;
    rewrite ?payloads_app, ?payloads_file_size_log, payloads_notification;
    reflexivity.
Qed.

(** C6 (as stated, refuted): the request for a created file carries the
    tags [file_folder] and [new]; no tag of it is named [file-folder]. *)
Lemma created_tags_counterexample :
  should_process_event sample_handler sample_event = true
  /\ exists payload : gmap string jval,
       payloads (snd (dispatch sample_env sample_handler sample_event []))
       = [payload]
       /\ tag_names (payload !! "tags") = ["file_folder"; "new"]
       /\ ~ In "file-folder" (tag_names (payload !! "tags")).
Proof.
  split; [reflexivity|].
  destruct (dispatch_shape sample_env sample_handler sample_event [])
    as (tr & Hrun & Htr).
  change (should_process_event sample_handler sample_event) with true in Htr.
  destruct Htr as (message & Htr).
  eexists. split; [rewrite Hrun; exact Htr|].
  rewrite payload_tags. split; [reflexivity|].
  simpl. intros [H|[H|[]]]; discriminate H.
Qed.

(** C6 (amended): for an accepted event the one request issued carries
    the title, the priority and the tag string of its kind (created:
    "File Created", 3, "file_folder,new"; modified: "File Modified", 2,
    "pencil"; deleted: "File Deleted", 4, "wastebasket,warning"), and the
    [tags] field is the one-element list holding that string whole. *)
Theorem event_notification_fields (w : env) (self : handler) (e : event)
  (s : state) :
  should_process_event self e = true ->
  exists payload : gmap string jval,
    payloads (snd (dispatch w self e s)) = (payloads s ++ [payload])%list
    /\ let '(title, priority, tags) :=
         match event_kind e with
         | Created => ("File Created", 3, "file_folder,new")
         | Modified => ("File Modified", 2, "pencil")
         | Deleted => ("File Deleted", 4, "wastebasket,warning")
         | Moved => (moved_title (src_path e) (dest_path e), 3, "arrow_right")
         end in
       payload !! "title" = Some (JStr title)
       /\ payload !! "priority" = Some (JInt priority)
       /\ payload !! "tags" = Some (JList [JStr tags]).
Proof.
  intros Hacc.
  destruct (dispatch_shape w self e s) as (tr & Hrun & Htr).
  rewrite Hacc in Htr. destruct Htr as (message & Htr).
  eexists. split.
  - rewrite Hrun. cbn [snd]. rewrite payloads_app, Htr. reflexivity.
  - rewrite payload_title, payload_priority, payload_tags.
    unfold event_fields.
    destruct (event_kind e); cbn [fst snd];
      (split; [|split]); try reflexivity.
    unfold moved_title.
    destruct (String.eqb _ _); reflexivity.
Qed.

(** The theorem at the created file of the sample run. *)
Lemma event_notification_fields_witness :
  should_process_event sample_handler sample_event = true
  /\ exists payload : gmap string jval,
       payloads (snd (dispatch sample_env sample_handler sample_event []))
       = [payload]
       /\ payload !! "title" = Some (JStr "File Created")
       /\ payload !! "priority" = Some (JInt 3)
       /\ payload !! "tags" = Some (JList [JStr "file_folder,new"]).
Proof.
  split; [reflexivity|].
  apply (event_notification_fields sample_env sample_handler sample_event []).
  reflexivity.
Defined.

Lemma dispatch_returns (w : env) (self : handler) (e : event) (s : state) :
  fst (dispatch w self e s) = Ret tt.
Proof.
  destruct (dispatch_shape w self e s) as (tr & -> & _). reflexivity.
Qed.

Lemma dispatch_sent (w : env) (self : handler) (e : event) (s : state) :
  sent (snd (dispatch w self e s))
  = (sent s + if should_process_event self e then 1 else 0)%nat.
Proof.
  destruct (dispatch_shape w self e s) as (tr & -> & Htr). cbn [snd].
  rewrite sent_app. f_equal. rewrite sent_payloads.
  destruct (should_process_event self e).
  - destruct Htr as (message & ->). reflexivity.
  - rewrite Htr. reflexivity.
Qed.

(** The delivery loop gets through every event and issues one request
    for each one the filter accepts. *)
Lemma deliver_run (w : env) (self : handler) (es : list event) :
  forall s : state,
    fst (deliver w self es s) = Ret tt
    /\ sent (snd (deliver w self es s))
       = (sent s + length (List.filter (should_process_event self) es))%nat.
Proof.
  induction es as [|e es IH]; intros s.
  - simpl. split; [reflexivity|lia].
  - cbn [deliver]. unfold bind.
    pose proof (dispatch_returns w self e s) as Hret.
    pose proof (dispatch_sent w self e s) as Hsent.
    destruct (dispatch w self e s) as [r s']. cbn [fst snd] in Hret, Hsent.
    subst r. destruct (IH s') as [IH1 IH2].
    split; [exact IH1|]. rewrite IH2, Hsent. cbn [List.filter].
    destruct (should_process_event self e); simpl; lia.
Qed.

(** C2: [send_notification] issues one request and returns normally
    whatever its outcome: status 200 is logged at debug level, any other
    status as an error with the code, a transport error as an error with
    its description.  Hence the delivery loop gets through all its
    events, with one request, and no more, per accepted event, whatever
    the relay answers. *)
Theorem delivery_never_raises (w : env) (self : handler) (message : string)
  (title : option string) (priority : priority_arg)
  (tags click attach actions : option string) (es : list event) (s : state) :
  send_notification w self message title priority tags click attach actions s
  = (Ret tt,
     (s ++ [Post "https://ntfy.sh"
              (build_payload self message title priority tags click attach
                 actions);
            match net w (sent s) with
            | Status code =>
                if code =? 200
                then Log DEBUG ("Notification sent: " ++ default "None" title)
                else Log ERROR ("Failed to send notification: "
                                ++ str_of_Z code)
            | TransportError msg =>
                Log ERROR ("Error sending notification: " ++ msg)
            end])%list)
  /\ fst (deliver w self es s) = Ret tt
  /\ sent (snd (deliver w self es s))
     = (sent s + length (List.filter (should_process_event self) es))%nat.
Proof.
  split; [apply send_notification_run|apply deliver_run].
Qed.

(** C5 (the code at the failing inputs): two paths without a slash lie
    in the same directory, yet neither the pair [a.txt], [b.txt] nor the
    Windows pair [C:\w\a.txt], [C:\w\b.txt] is reported as a rename: the
    text compared is the whole path. *)
Theorem moved_title_without_slash :
  dirname "a.txt" = dirname "b.txt"
  /\ moved_title "a.txt" "b.txt" = "File Moved"
  /\ dirname "C:\w\a.txt" = dirname "C:\w\b.txt"
  /\ moved_title "C:\w\a.txt" "C:\w\b.txt" = "File Moved".
Proof. repeat split. Qed.

(** On the paths of the specification the title is as the claim says,
    and the priority of a move is 3. *)
Lemma moved_title_examples :
  moved_title "/x/a.txt" "/x/b.txt" = "File Renamed: a.txt → b.txt"
  /\ moved_title "/x/a.txt" "/y/a.txt" = "File Moved"
  /\ forall e : event, event_kind e = Moved -> snd (fst (event_fields e)) = 3.
Proof.
  repeat split. intros e H. unfold event_fields. rewrite H. reflexivity.
Qed.

End NotifierProofs.

(** ** Start-up, run and shut-down *)

Module MainProofs.
Import PyStr OsPath FileChangeHandler Spec NotifierProofs.

Lemma on_topic_nil (t : string) : on_topic t [].
Proof. constructor. Qed.

Lemma on_topic_app (t : string) (tr tr' : list effect) :
  on_topic t tr -> on_topic t tr' -> on_topic t (tr ++ tr').
Proof.
  unfold on_topic. intros H H'. rewrite payloads_app.
  apply Forall_app. split; assumption.
Qed.

Lemma on_topic_quiet (t : string) (tr : list effect) :
  payloads tr = [] -> on_topic t tr.
Proof. unfold on_topic. intros ->. constructor. Qed.

Lemma on_topic_notification (self : handler) (message : string)
  (title : option string) (priority : priority_arg)
  (tags click attach actions : option string) (o : net_outcome) :
  on_topic (topic self)
    [Post "https://ntfy.sh"
       (build_payload self message title priority tags click attach actions);
     delivery_log o title].
Proof.
  unfold on_topic.
  change [?x; ?y] with ([x] ++ [y])%list.
  rewrite payloads_app, payloads_delivery_log. simpl.
  constructor; [apply payload_topic|constructor].
Qed.

Lemma dispatch_on_topic (w : env) (self : handler) (e : event) (s : state) :
  exists tr : list effect,
    dispatch w self e s = (Ret tt, (s ++ tr)%list)
    /\ on_topic (topic self) tr.
Proof.
  destruct (dispatch_shape w self e s) as (tr & Hrun & Htr).
  exists tr. split; [exact Hrun|].
  destruct (should_process_event self e).
  - destruct Htr as (message & Htr). unfold on_topic. rewrite Htr.
    constructor; [apply payload_topic|constructor].
  - subst tr. apply on_topic_nil.
Qed.

Lemma deliver_on_topic (w : env) (self : handler) (es : list event) :
  forall s : state,
    exists tr : list effect,
      deliver w self es s = (Ret tt, (s ++ tr)%list)
      /\ on_topic (topic self) tr.
Proof.
  induction es as [|e es IH]; intros s.
  - exists []. rewrite app_nil_r. split; [reflexivity|apply on_topic_nil].
  - cbn [deliver]. unfold bind.
    destruct (dispatch_on_topic w self e s) as (tr & -> & Htr).
    destruct (IH (s ++ tr)%list) as (tr' & -> & Htr').
    exists (tr ++ tr')%list. rewrite app_assoc.
    split; [reflexivity|apply on_topic_app; assumption].
Qed.

Lemma init_on_topic (w : env) (t : string) (exts : option (list string))
  (excl : bool) (s : state) :
  exists tr : list effect,
    init w t exts excl s = (Ret (mkHandler t exts excl), (s ++ tr)%list)
    /\ on_topic t tr.
Proof.
  unfold init, bind. rewrite send_notification_run.
  unfold log, emit, ret.
  destruct (truthy_list exts); eexists; rewrite <- !app_assoc;
    (split; [reflexivity|]);
    (apply on_topic_app;
     [apply (on_topic_notification (mkHandler t exts excl))
     |apply on_topic_quiet; reflexivity]).
Qed.

Lemma idle_loop_run (n : nat) :
  forall s : state,
    Main.idle_loop n s = (Raise KeyboardInterrupt, (s ++ repeat Sleep n)%list).
Proof.
  induction n as [|n IH]; intros s.
  - simpl. rewrite app_nil_r. reflexivity.
  - cbn [Main.idle_loop]. unfold bind, emit. rewrite IH, <- app_assoc.
    reflexivity.
Qed.

Lemma payloads_sleeps (n : nat) : payloads (repeat Sleep n) = [].
Proof. induction n as [|n IH]; [reflexivity|exact IH]. Qed.

(** The two courses of [main]: without the watched path one error
    record and [sys.exit(1)]; with it the start-up, the run, the
    interruption and the shut-down, all requests on the topic of the
    command line. *)
Lemma main_missing_path (w : env) (a : Main.args) (s : state) :
  path_exists w (Main.path a) = false ->
  Main.main w a s
  = (Raise (SystemExit 1),
     (s ++ [Log ERROR ("The specified path does not exist: "
                       ++ Main.path a)])%list).
Proof.
  intros H. unfold Main.main. rewrite H. reflexivity.
Qed.

Lemma main_existing_path (w : env) (a : Main.args) (s : state) :
  path_exists w (Main.path a) = true ->
  exists tr : list effect,
    Main.main w a s = (Ret tt, (s ++ tr ++ [ObserverStop; ObserverJoin])%list)
    /\ on_topic (Main.topic a) tr.
Proof.
  intros H. unfold Main.main. rewrite H. cbn [negb].
  unfold bind at 1. unfold ret at 1.
  unfold bind at 1.
  set (exts := if truthy_str (Main.extensions a) then _ else None).
  destruct (init_on_topic w (Main.topic a) exts
              (negb (Main.include_directories a)) s) as (tr0 & -> & H0).
  set (self := mkHandler _ _ _).
  unfold bind, log, emit, try_except_interrupt, Main.observer_thread.
  cbv beta iota.
  match goal with
  | |- context [deliver w self ?es ?st] =>
      destruct (deliver_on_topic w self es st) as (tr1 & -> & H1)
  end.
  cbn [snd]. rewrite idle_loop_run, send_notification_run.
  match goal with |- context [net w ?n] => set (o := net w n) end.
  exists (tr0
          ++ [ObserverSchedule (Main.path a) (Main.recursive a);
              ObserverStart;
              Log INFO ("Monitoring folder: " ++ abspath w (Main.path a)
                        ++ " (recursive: "
                        ++ Main.fmt_bool (Main.recursive a) ++ ")")]
          ++ tr1 ++ repeat Sleep (interrupt_after w)
          ++ [Log INFO "Monitoring stopped by user"]
          ++ [Post "https://ntfy.sh"
                (build_payload self "Folder monitoring stopped by user"
                   (Some "Monitoring Stopped") (PInt 3) (Some "stop_sign")
                   None None None);
              delivery_log o (Some "Monitoring Stopped")])%list.
  split.
  - rewrite <- !app_assoc. reflexivity.
  - repeat apply on_topic_app; try (apply on_topic_quiet; reflexivity).
    + exact H0.
    + exact H1.
    + apply on_topic_quiet, payloads_sleeps.
    + apply (on_topic_notification self).
Qed.

(** C7: the request of every call of [send_notification] carries the
    payload built for it, whose [topic] is the topic of the handler; and
    every request of a run of the program is on the topic of the command
    line. *)
Theorem topic_invariant (w : env) (a : Main.args) :
  (forall (self : handler) (message : string) (title : option string)
          (priority : priority_arg)
          (tags click attach actions : option string) (s : state),
      payloads
        (snd (send_notification w self message title priority tags click
                attach actions s))
      = (payloads s
           ++ [build_payload self message title priority tags click attach
                 actions])%list
      /\ build_payload self message title priority tags click attach actions
           !! "topic" = Some (JStr (topic self)))
  /\ Forall (fun payload : gmap string jval =>
               payload !! "topic" = Some (JStr (Main.topic a)))
       (payloads (snd (Main.run w a))).
Proof.
  split.
  - intros. split; [|apply payload_topic].
    rewrite send_notification_run. cbn [snd].
    change [?x; ?y] with ([x] ++ [y])%list.
    rewrite !payloads_app, payloads_delivery_log. reflexivity.
  - unfold Main.run.
    destruct (path_exists w (Main.path a)) eqn:E.
    + destruct (main_existing_path w a Main.initial E) as (tr & -> & Htr).
      cbn [snd]. rewrite app_nil_l, payloads_app.
      change (payloads [ObserverStop; ObserverJoin])
        with (@nil (gmap string jval)).
      rewrite app_nil_r. exact Htr.
    + rewrite (main_missing_path w a Main.initial E). constructor.
Qed.

(** C8: when the watched path does not exist the program logs the
    error and exits with status 1, and that log record is its only
    effect: no request is sent and the observer is never started.  When
    the path exists, the run ends on the interruption with status 0,
    after stopping and joining the observer. *)
Theorem startup_and_exit_status (w : env) (a : Main.args) :
  if path_exists w (Main.path a)
  then fst (Main.run w a) = 0
       /\ exists tr : list effect,
            snd (Main.run w a) = (tr ++ [ObserverStop; ObserverJoin])%list
  else Main.run w a
       = (1, [Log ERROR ("The specified path does not exist: "
                         ++ Main.path a)]).
Proof.
  unfold Main.run.
  destruct (path_exists w (Main.path a)) eqn:E.
  - destruct (main_existing_path w a Main.initial E) as (tr & -> & _).
    split; [reflexivity|]. exists tr. reflexivity.
  - rewrite (main_missing_path w a Main.initial E). reflexivity.
Qed.

(** The sample run: three requests (start, the created file, stop) and
    exit status 0. *)
Example sample_run :
  fst (Main.run sample_env sample_args) = 0
  /\ length (payloads (snd (Main.run sample_env sample_args))) = 3%nat.
Proof. split; vm_compute; reflexivity. Qed.

End MainProofs.

(** ** Paths: splitting and reassembling *)

Module PathProofs.
Import PyStr OsPath FileChangeHandler Spec FilterProofs.

Lemma append_empty_r (s : string) : s ++ "" = s.
Proof.
  induction s as [|a s IH]; [reflexivity|].
  change (String a (s ++ "") = String a s). f_equal. exact IH.
Qed.

Lemma str_take_drop (n : nat) :
  forall s : string, str_take n s ++ str_drop n s = s.
Proof.
  induction n as [|n IH]; intros s; [reflexivity|].
  destruct s as [|a s]; [reflexivity|].
  change (String a (str_take n s ++ str_drop n s) = String a s).
  f_equal. apply IH.
Qed.

Lemma splitext_loop_reassemble (p : string) (dotIndex : Z) (fuel : nat) :
  forall filenameIndex : Z,
    fst (splitext_loop fuel p filenameIndex dotIndex)
      ++ snd (splitext_loop fuel p filenameIndex dotIndex) = p.
Proof.
  induction fuel as [|fuel IH]; intros fi; simpl.
  - apply append_empty_r.
  - destruct (fi <? dotIndex); [|apply append_empty_r].
    destruct (negb _); [|apply IH].
    apply str_take_drop.
Qed.

(** No character after its last occurrence: the text from the last
    [c] on is [c] followed by a text without [c]. *)
Lemma rfind_str_drop_at (c : ascii) (s : string) :
  0 <= rfind c s ->
  exists t : string,
    str_drop (Z.to_nat (rfind c s)) s = String c t /\ rfind c t = -1.
Proof.
  induction s as [|a s IH]; simpl; [lia|].
  pose proof (rfind_lower_bound c s) as Hlo.
  destruct (0 <=? rfind c s) eqn:E.
  - intros _. apply Z.leb_le in E. destruct (IH E) as (t & Ht & Hnone).
    exists t. split; [|exact Hnone].
    replace (Z.to_nat (rfind c s + 1)) with (S (Z.to_nat (rfind c s))) by lia.
    exact Ht.
  - apply Z.leb_gt in E. destruct (Ascii.eqb_spec a c) as [->|]; [|lia].
    intros _. exists s. split; [reflexivity|lia].
Qed.

(** A text without [c] has no [c] in any of its suffixes. *)
Lemma rfind_str_drop_none (c : ascii) (n : nat) (s : string) :
  rfind c s = -1 -> rfind c (str_drop n s) = -1.
Proof.
  intros H. pose proof (rfind_str_drop c n s) as Hd. cbv zeta in Hd.
  pose proof (rfind_lower_bound c (str_drop n s)).
  destruct (0 <=? rfind c (str_drop n s)) eqn:E.
  - apply Z.leb_le in E. lia.
  - apply Z.leb_gt in E. lia.
Qed.

Lemma basename_no_sep (p : string) : rfind "/" (basename p) = -1.
Proof.
  unfold basename, slice_from.
  pose proof (rfind_lower_bound "/" p) as Hlo.
  pose proof (rfind_str_drop "/" (Z.to_nat (rfind "/" p + 1)) p) as Hd.
  cbv zeta in Hd.
  pose proof (rfind_lower_bound "/"
                (str_drop (Z.to_nat (rfind "/" p + 1)) p)).
  destruct (0 <=? rfind "/" (str_drop (Z.to_nat (rfind "/" p + 1)) p)) eqn:E.
  - apply Z.leb_le in E. lia.
  - apply Z.leb_gt in E. lia.
Qed.

(** X1: [os.path.splitext] loses nothing: root and extension put
    together give the path back. *)
Theorem splitext_reassemble (p : string) :
  fst (splitext p) ++ snd (splitext p) = p.
Proof.
  unfold splitext.
  destruct (rfind "/" p <? rfind "." p).
  - apply splitext_loop_reassemble.
  - apply append_empty_r.
Qed.

(** X2: the extension [os.path.splitext] yields is empty, or a dot
    followed by a text with neither a dot nor a slash. *)
Theorem splitext_extension_shape (p : string) :
  snd (splitext p) = ""
  \/ exists t : string,
       snd (splitext p) = String "." t
       /\ rfind "." t = -1 /\ rfind "/" t = -1.
Proof.
  rewrite splitext_snd. unfold splitext_extension.
  set (b := basename p).
  destruct (rfind "." b <? 0) eqn:E; [left; reflexivity|].
  destruct (all_dots _); [left; reflexivity|]. right.
  apply Z.ltb_ge in E.
  destruct (rfind_str_drop_at "." b E) as (t & Ht & Hdot).
  exists t. unfold slice_from. rewrite Ht. split; [reflexivity|].
  split; [exact Hdot|].
  apply str_drop_cons in Ht. rewrite <- Ht.
  apply rfind_str_drop_none. apply basename_no_sep.
Qed.

Lemma head_sep_basename (p : string) :
  0 <= rfind "/" p -> rsplit1_head "/" p ++ "/" ++ basename p = p.
Proof.
  intros E. unfold rsplit1_head, basename, slice_to, slice_from.
  replace (rfind "/" p <? 0) with false by (symmetry; apply Z.ltb_ge; lia).
  destruct (rfind_str_drop_at "/" p E) as (t & Ht & _).
  replace (Z.to_nat (rfind "/" p + 1)) with (S (Z.to_nat (rfind "/" p)))
    by lia.
  rewrite (str_drop_cons _ _ _ _ Ht).
  change ("/" ++ t) with (String "/" t). rewrite <- Ht.
  apply str_take_drop.
Qed.

(** X3: a path with a slash is its text before the last slash, the
    slash and its base name; a path without one is its own base name
    and its own text before the last slash. *)
Theorem path_head_basename (p : string) :
  if 0 <=? rfind "/" p
  then rsplit1_head "/" p ++ "/" ++ basename p = p
  else rsplit1_head "/" p = p /\ basename p = p.
Proof.
  pose proof (rfind_lower_bound "/" p) as Hlo.
  destruct (0 <=? rfind "/" p) eqn:E.
  - apply Z.leb_le in E. apply head_sep_basename. exact E.
  - apply Z.leb_gt in E. unfold rsplit1_head, basename, slice_from.
    replace (rfind "/" p <? 0) with true by (symmetry; apply Z.ltb_lt; lia).
    replace (rfind "/" p + 1) with 0 by lia. split; reflexivity.
Qed.

(** X4: the title of a move is the rename form exactly when the texts
    before the last slash are the same, the two forms are different
    strings, and then both paths with a slash are that same text, a
    slash and their own base names. *)
Theorem moved_title_rename (src dest : string) :
  (moved_title src dest
   = "File Renamed: " ++ basename src ++ " → " ++ basename dest
   <-> rsplit1_head "/" src = rsplit1_head "/" dest)
  /\ (moved_title src dest = "File Moved"
      <-> rsplit1_head "/" src <> rsplit1_head "/" dest)
  /\ (0 <= rfind "/" src -> 0 <= rfind "/" dest ->
      moved_title src dest <> "File Moved" ->
      exists head : string,
        src = head ++ "/" ++ basename src
        /\ dest = head ++ "/" ++ basename dest).
Proof.
  unfold moved_title.
  destruct (String.eqb_spec (rsplit1_head "/" src) (rsplit1_head "/" dest))
    as [Heq|Hne].
  - split; [tauto|]. split; [split; [discriminate|tauto]|].
    intros Hs Hd _. exists (rsplit1_head "/" src).
    split; [|rewrite Heq]; symmetry; apply head_sep_basename; assumption.
  - split; [split; [discriminate|tauto]|]. split; [tauto|].
    intros _ _ H. exfalso. apply H. reflexivity.
Qed.

(** The theorem at the rename of [/x/a.txt] to [/x/b.txt]. *)
Lemma moved_title_rename_witness :
  exists head : string,
    "/x/a.txt" = head ++ "/" ++ basename "/x/a.txt"
    /\ "/x/b.txt" = head ++ "/" ++ basename "/x/b.txt".
Proof.
  apply (proj2 (proj2 (moved_title_rename "/x/a.txt" "/x/b.txt")));
    discriminate.
Defined.

End PathProofs.

(** ** The allow-list of extensions *)

Module ConfigProofs.
Import PyStr OsPath FileChangeHandler Spec Config.

Lemma lower_ascii_idempotent (a : ascii) :
  lower_ascii (lower_ascii a) = lower_ascii a.
Proof. destruct a as [[] [] [] [] [] [] [] []]; reflexivity. Qed.

Lemma is_space_lower_ascii (a : ascii) :
  is_space (lower_ascii a) = is_space a.
Proof. destruct a as [[] [] [] [] [] [] [] []]; reflexivity. Qed.

Lemma lower_idempotent (s : string) : lower (lower s) = lower s.
Proof.
  induction s as [|a s IH]; [reflexivity|].
  cbn [lower]. rewrite lower_ascii_idempotent, IH. reflexivity.
Qed.

Lemma lower_append (s t : string) : lower (s ++ t) = lower s ++ lower t.
Proof.
  induction s as [|a s IH]; [reflexivity|].
  change (String (lower_ascii a) (lower (s ++ t))
          = String (lower_ascii a) (lower s ++ lower t)).
  rewrite IH. reflexivity.
Qed.

Lemma lstrip_lower (s : string) : lstrip (lower s) = lower (lstrip s).
Proof.
  induction s as [|a s IH]; [reflexivity|].
  cbn [lower lstrip]. rewrite is_space_lower_ascii.
  destruct (is_space a); [exact IH|reflexivity].
Qed.

Lemma rstrip_lower (s : string) : rstrip (lower s) = lower (rstrip s).
Proof.
  induction s as [|a s IH]; [reflexivity|].
  cbn [lower rstrip]. rewrite IH, is_space_lower_ascii.
  destruct (rstrip s); [destruct (is_space a)|]; reflexivity.
Qed.

Lemma strip_lower (s : string) : strip (lower s) = lower (strip s).
Proof. unfold strip. rewrite lstrip_lower, rstrip_lower. reflexivity. Qed.

Lemma rstrip_idempotent (s : string) : rstrip (rstrip s) = rstrip s.
Proof.
  induction s as [|a s IH]; [reflexivity|].
  cbn [rstrip]. destruct (rstrip s) as [|b t] eqn:E.
  - destruct (is_space a) eqn:Ea; [reflexivity|].
    cbn [rstrip]. rewrite Ea. reflexivity.
  - cbn [rstrip]. cbn [rstrip] in IH. rewrite IH. reflexivity.
Qed.

(** A text that does not begin with a space keeps its first character
    when the spaces at its end go. *)
Lemma lstrip_rstrip_lstrip (s : string) :
  lstrip (rstrip (lstrip s)) = rstrip (lstrip s).
Proof.
  induction s as [|a s IH]; [reflexivity|].
  cbn [lstrip]. destruct (is_space a) eqn:Ea; [exact IH|].
  cbn [rstrip]. destruct (rstrip s); rewrite ?Ea; cbn [lstrip]; rewrite Ea;
    reflexivity.
Qed.

Lemma strip_idempotent (s : string) : strip (strip s) = strip s.
Proof.
  unfold strip. rewrite lstrip_rstrip_lstrip. apply rstrip_idempotent.
Qed.

Lemma startswith_dot_lower (s : string) :
  startswith_char "." (lower s) = startswith_char "." s.
Proof.
  destruct s as [|a s]; [reflexivity|].
  destruct a as [[] [] [] [] [] [] [] []]; reflexivity.
Qed.

Lemma normalize_extension_dot (ext : string) :
  startswith_char "." (Main.normalize_extension ext) = true.
Proof.
  unfold Main.normalize_extension.
  destruct (startswith_char "." (strip ext)) eqn:E; [|reflexivity].
  rewrite startswith_dot_lower. exact E.
Qed.

Lemma normalize_extension_lower (ext : string) :
  lower (Main.normalize_extension ext) = Main.normalize_extension ext.
Proof.
  unfold Main.normalize_extension.
  destruct (startswith_char "." (strip ext)).
  - apply lower_idempotent.
  - rewrite lower_append, lower_idempotent. reflexivity.
Qed.

Lemma normalize_extension_strip (ext : string) :
  strip (Main.normalize_extension ext) = Main.normalize_extension ext.
Proof.
  unfold Main.normalize_extension.
  destruct (startswith_char "." (strip ext)).
  - rewrite strip_lower, strip_idempotent. reflexivity.
  - unfold strip at 1. change ("." ++ ?x) with (String "." x).
    cbn [lstrip]. change (is_space ".") with false. cbv iota.
    cbn [rstrip]. rewrite rstrip_lower.
    replace (rstrip (strip ext)) with (strip ext)
      by (unfold strip; rewrite rstrip_idempotent; reflexivity).
    destruct (lower (strip ext)); reflexivity.
Qed.

(** X5: every entry [main] derives from [--extensions] begins with a
    dot, is in lower case and has no space around it; deriving it again
    from itself changes nothing. *)
Theorem normalize_extension_canonical (ext : string) :
  startswith_char "." (Main.normalize_extension ext) = true
  /\ lower (Main.normalize_extension ext) = Main.normalize_extension ext
  /\ strip (Main.normalize_extension ext) = Main.normalize_extension ext
  /\ Main.normalize_extension (Main.normalize_extension ext)
     = Main.normalize_extension ext.
Proof.
  split; [apply normalize_extension_dot|].
  split; [apply normalize_extension_lower|].
  split; [apply normalize_extension_strip|].
  unfold Main.normalize_extension at 1.
  rewrite normalize_extension_strip, normalize_extension_dot.
  apply normalize_extension_lower.
Qed.

Lemma mem_In (x : string) (xs : list string) : mem x xs = true <-> In x xs.
Proof.
  unfold mem. rewrite existsb_exists. split.
  - intros (y & Hy & E). apply String.eqb_eq in E. subst y. exact Hy.
  - intros H. exists x. split; [exact H|apply String.eqb_refl].
Qed.

Lemma split_not_nil (c : ascii) (s : string) : split c s <> [].
Proof.
  destruct s as [|a s]; [discriminate|]. cbn [split].
  destruct (Ascii.eqb a c); [discriminate|].
  destruct (split c s); discriminate.
Qed.

Lemma configured_extensions_truthy (a : Main.args) :
  truthy_list (configured_extensions a) = truthy_str (Main.extensions a).
Proof.
  unfold configured_extensions.
  destruct (truthy_str (Main.extensions a)); [|reflexivity].
  pose proof (split_not_nil "," (default "" (Main.extensions a))) as H.
  destruct (split "," (default "" (Main.extensions a))); [contradiction|].
  reflexivity.
Qed.

(** X6: an entry of the allow-list that is not in lower case matches no
    file: under a non-empty allow-list without a lower-case entry every
    file event is rejected. *)
Theorem uppercase_entries_never_match (self : handler) (e : event) :
  truthy_list (include_extensions self) = true ->
  is_directory e = false ->
  (forall x : string,
      In x (default [] (include_extensions self)) -> lower x <> x) ->
  should_process_event self e = false.
Proof.
  intros Hlist Hdir Hupper. unfold should_process_event.
  rewrite Hlist, Hdir, andb_false_r. cbn [negb andb].
  destruct (mem _ _) eqn:E; [|reflexivity].
  apply mem_In in E. apply Hupper in E.
  rewrite lower_idempotent in E. contradiction.
Qed.

(** The theorem at the allow-list [.TXT] and the file [/w/a.TXT]. *)
Lemma uppercase_entries_never_match_witness :
  should_process_event (mkHandler "t" (Some [".TXT"]) true)
    (mkEvent Created "/w/a.TXT" "" false) = false.
Proof.
  apply uppercase_entries_never_match; [reflexivity|reflexivity|].
  intros x [<-|[]]. discriminate.
Defined.

(** X7: with [--extensions] given, the handler of [main] accepts every
    file whose extension, in lower case, is what [main] derives from one
    of the items of the list, whatever the case of either. *)
Theorem listed_extension_accepted (a : Main.args) (item : string) (e : event) :
  truthy_str (Main.extensions a) = true ->
  In item (split "," (default "" (Main.extensions a))) ->
  is_directory e = false ->
  lower (snd (splitext (src_path e))) = Main.normalize_extension item ->
  should_process_event (configured_handler a) e = true.
Proof.
  intros Hext Hitem Hdir Hmatch. unfold should_process_event.
  cbn [configured_handler exclude_directories include_extensions].
  rewrite configured_extensions_truthy, Hext, Hdir, andb_false_r.
  cbn [negb andb].
  replace (mem _ _) with true; [reflexivity|].
  symmetry. apply mem_In. rewrite Hmatch.
  unfold configured_extensions. rewrite Hext. cbn [default].
  apply in_map. exact Hitem.
Qed.

(** The theorem at [--extensions "pdf, TXT"] and the file [/w/A.Txt]. *)
Lemma listed_extension_accepted_witness :
  should_process_event
    (configured_handler (Main.mkArgs "/w" "t" (Some "pdf, TXT") false false))
    (mkEvent Modified "/w/A.Txt" "" false) = true.
Proof.
  apply (listed_extension_accepted _ " TXT"); try reflexivity.
  right. left. reflexivity.
Defined.

(** X8: with [--extensions] given, the handler of [main] rejects every
    file without an extension, such as [Makefile] or [.bashrc]: no entry
    [main] derives is empty. *)
Theorem no_extension_rejected (a : Main.args) (e : event) :
  truthy_str (Main.extensions a) = true ->
  is_directory e = false ->
  snd (splitext (src_path e)) = "" ->
  should_process_event (configured_handler a) e = false.
Proof.
  intros Hext Hdir Hnone. unfold should_process_event.
  cbn [configured_handler exclude_directories include_extensions].
  rewrite configured_extensions_truthy, Hext, Hdir, andb_false_r, Hnone.
  cbn [negb andb lower].
  destruct (mem _ _) eqn:E; [|reflexivity].
  apply mem_In in E. unfold configured_extensions in E. rewrite Hext in E.
  cbn [default] in E. apply in_map_iff in E. destruct E as (x & Hx & _).
  pose proof (normalize_extension_dot x) as Hdot. rewrite Hx in Hdot.
  discriminate Hdot.
Qed.

(** The theorem at [--extensions "txt"] and the file [/w/.bashrc]. *)
Lemma no_extension_rejected_witness :
  should_process_event
    (configured_handler (Main.mkArgs "/w" "t" (Some "txt") false false))
    (mkEvent Created "/w/.bashrc" "" false) = false.
Proof. apply no_extension_rejected; reflexivity. Defined.

End ConfigProofs.

(** ** The payload and the callbacks *)

Module PayloadProofs.
Import PyStr OsPath PyNum FileChangeHandler Spec Config NotifierProofs.

Lemma lookup_set_if_other (c : bool) (k k' : string) (v : jval)
  (m : gmap string jval) :
  k <> k' -> set_if c k v m !! k' = m !! k'.
Proof. apply lookup_set_if_ne. Qed.

(** X9: a payload has no key besides topic, message, title, priority,
    tags, click, attach and actions. *)
Theorem payload_has_no_other_key (self : handler) (message : string)
  (title : option string) (priority : priority_arg)
  (tags click attach actions : option string) (k : string) :
  ~ In k payload_keys ->
  build_payload self message title priority tags click attach actions !! k
  = None.
Proof.
  intros H. unfold build_payload.
  assert (Hk : forall k' : string, In k' payload_keys -> k' <> k).
  { intros k' Hin ->. apply H. exact Hin. }
  rewrite !lookup_set_if_other, lookup_set_priority_ne, lookup_set_if_other,
    !lookup_insert_other by (apply Hk; simpl; tauto).
  apply lookup_nothing.
Qed.

(** The theorem at the key [icon]. *)
Lemma payload_has_no_other_key_witness :
  build_payload sample_handler "m" (Some "t") (PInt 3) (Some "x") (Some "u")
    (Some "v") (Some "w") !! "icon" = None.
Proof.
  apply payload_has_no_other_key.
  simpl. intros [H|[H|[H|[H|[H|[H|[H|[H|[]]]]]]]]]; discriminate H.
Defined.

(** X10: click, attach and actions go into the payload as the strings
    given when they are not empty, whatever the other arguments, and
    leave no key when empty or absent. *)
Theorem optional_fields_pass_through (self : handler) (message : string)
  (title : option string) (priority : priority_arg)
  (tags click attach actions : option string) :
  let payload :=
    build_payload self message title priority tags click attach actions in
  payload !! "click"
  = (if truthy_str click then Some (JStr (default "" click)) else None)
  /\ payload !! "attach"
     = (if truthy_str attach then Some (JStr (default "" attach)) else None)
  /\ payload !! "actions"
     = (if truthy_str actions then Some (JStr (default "" actions)) else None).
Proof.
  cbv zeta. unfold build_payload.
  repeat split.
  - rewrite !lookup_set_if_other by discriminate.
    rewrite lookup_set_if_eq. destruct (truthy_str click); [reflexivity|].
    rewrite lookup_set_if_other, lookup_set_priority_ne, lookup_set_if_other,
      !lookup_insert_other by discriminate.
    apply lookup_nothing.
  - rewrite lookup_set_if_other by discriminate.
    rewrite lookup_set_if_eq. destruct (truthy_str attach); [reflexivity|].
    rewrite !lookup_set_if_other, lookup_set_priority_ne, lookup_set_if_other,
      !lookup_insert_other by discriminate.
    apply lookup_nothing.
  - rewrite lookup_set_if_eq. destruct (truthy_str actions); [reflexivity|].
    rewrite !lookup_set_if_other, lookup_set_priority_ne, lookup_set_if_other,
      !lookup_insert_other by discriminate.
    apply lookup_nothing.
Qed.

(** X11: an integer priority is not checked against the range 1 to 5:
    every integer but 0 goes into the payload as it is. *)
Theorem integer_priority_unchecked (self : handler) (message : string)
  (title tags click attach actions : option string) (n : Z) :
  n <> 0 ->
  build_payload self message title (PInt n) tags click attach actions
    !! "priority" = Some (JInt n).
Proof.
  intros Hn. rewrite payload_priority. unfold set_priority, truthy_priority.
  replace (n =? 0) with false by (symmetry; apply Z.eqb_neq; exact Hn).
  apply lookup_insert_same.
Qed.

(** The theorem at the priorities 9 and -1. *)
Lemma integer_priority_unchecked_witness :
  build_payload sample_handler "m" None (PInt 9) None None None None
    !! "priority" = Some (JInt 9)
  /\ build_payload sample_handler "m" None (PInt (-1)) None None None None
       !! "priority" = Some (JInt (-1)).
Proof.
  split; apply integer_priority_unchecked; discriminate.
Defined.

Lemma lookup_insert_cases (k name : string) (v n : Z) (m : gmap string Z) :
  <[k := v]> m !! name = Some n ->
  v = n \/ m !! name = Some n.
Proof.
  intros H. destruct (decide (k = name)) as [->|Hne].
  - rewrite lookup_insert_eq in H. left. congruence.
  - rewrite lookup_insert_ne in H by exact Hne. right. exact H.
Qed.

Lemma priority_map_range (name : string) (n : Z) :
  priority_map !! name = Some n -> 1 <= n <= 5.
Proof.
  unfold priority_map. intros H.
  do 5 (apply lookup_insert_cases in H; destruct H as [<-|H]; [lia|]).
  rewrite lookup_empty in H. discriminate H.
Qed.

(** X12: a priority given by name is in the payload as an integer from
    1 to 5 or not at all. *)
Theorem named_priority_in_range (self : handler) (message : string)
  (title tags click attach actions : option string) (name : string) :
  build_payload self message title (PName name) tags click attach actions
    !! "priority" = None
  \/ exists n : Z,
       1 <= n <= 5
       /\ build_payload self message title (PName name) tags click attach
            actions !! "priority" = Some (JInt n).
Proof.
  rewrite payload_priority. unfold set_priority.
  destruct (truthy_priority (PName name));
    [|left; apply lookup_nothing].
  destruct (priority_map !! name) as [n|] eqn:E;
    [|left; apply lookup_nothing].
  right. exists n. split; [exact (priority_map_range name n E)|].
  apply lookup_insert_same.
Qed.

(** X13: [__init__] returns the handler with the three fields given and
    issues one request, titled "Folder Monitoring Started" with priority
    3 and the tag rocket on the topic given, whatever the relay does. *)
Theorem init_announces (w : env) (t : string) (exts : option (list string))
  (excl : bool) (s : state) :
  fst (init w t exts excl s) = Ret (mkHandler t exts excl)
  /\ exists payload : gmap string jval,
       payloads (snd (init w t exts excl s)) = (payloads s ++ [payload])%list
       /\ payload !! "topic" = Some (JStr t)
       /\ payload !! "message"
          = Some (JStr "Started monitoring folder for changes")
       /\ payload !! "title" = Some (JStr "Folder Monitoring Started")
       /\ payload !! "priority" = Some (JInt 3)
       /\ payload !! "tags" = Some (JList [JStr "rocket"]).
Proof.
  unfold init, bind. rewrite send_notification_run.
  unfold log, emit, ret.
  split; [destruct (truthy_list exts); reflexivity|].
  eexists. split.
  - destruct (truthy_list exts); cbn [snd];
      rewrite !payloads_app;
      change [?x; ?y] with ([x] ++ [y])%list;
      rewrite payloads_app, payloads_delivery_log;
      cbn [payloads app]; rewrite ?app_nil_r; reflexivity.
  - rewrite payload_topic, payload_message, payload_title, payload_priority,
      payload_tags.
    repeat split.
Qed.

(** X14: an event the filter rejects leaves no effect: no log record,
    no size lookup, no request. *)
Theorem rejected_event_is_silent (w : env) (self : handler) (e : event)
  (s : state) :
  should_process_event self e = false ->
  dispatch w self e s = (Ret tt, s).
Proof.
  intros H. destruct (dispatch_shape w self e s) as (tr & -> & Htr).
  rewrite H in Htr. subst tr. rewrite app_nil_r. reflexivity.
Qed.

(** The theorem at a directory event under the sample handler. *)
Lemma rejected_event_is_silent_witness :
  dispatch sample_env sample_handler (mkEvent Created "/watched/d" "" true) []
  = (Ret tt, []).
Proof. apply rejected_event_is_silent. reflexivity. Defined.

Lemma dispatch_created (w : env) (self : handler) (e : event) (s : state) :
  event_kind e = Created -> dispatch w self e s = on_created w self e s.
Proof. unfold dispatch. intros ->. reflexivity. Qed.

Lemma dispatch_modified (w : env) (self : handler) (e : event) (s : state) :
  event_kind e = Modified -> dispatch w self e s = on_modified w self e s.
Proof. unfold dispatch. intros ->. reflexivity. Qed.

(** X15: when the size lookup of a created or modified file raises,
    the error is logged first and the notification still goes out, its
    message giving the size as Unknown. *)
Theorem size_failure_still_notifies (w : env) (self : handler) (e : event)
  (s : state) (msg : string) :
  should_process_event self e = true ->
  event_kind e = Created \/ event_kind e = Modified ->
  isfile w (src_path e) = true ->
  getsize w (src_path e) = OSError msg ->
  let created := match event_kind e with Created => true | _ => false end in
  exists (payload : gmap string jval) (l : level) (m : string),
    dispatch w self e s
    = (Ret tt,
       (s ++ [Log ERROR ("Error getting file size: " ++ msg);
              Log INFO ((if created then "Created: " else "Modified: ")
                        ++ src_path e);
              Post "https://ntfy.sh" payload;
              Log l m])%list)
    /\ payload !! "message"
       = Some (JStr ((if created then "File created: " else "File modified: ")
                     ++ basename (src_path e) ++ nl ++ "Location: "
                     ++ src_path e ++ nl ++ "Size: Unknown" ++ nl
                     ++ "Time: " ++ now w)).
Proof.
  intros Hacc Hkind Hfile Hsize. cbv zeta.
  assert (Hlog : forall o t, exists l m, delivery_log o t = Log l m).
  { intros [code|x] t; cbn [delivery_log]; [destruct (code =? 200)|]; eauto. }
  destruct Hkind as [Hk|Hk]; rewrite Hk.
  - rewrite (dispatch_created w self e s Hk), on_created_run, Hacc.
    unfold file_size_log, file_size_text. rewrite Hfile, Hsize.
    destruct (Hlog (net w (sent s)) (Some "File Created")) as (l & m & ->).
    eexists _, l, m. split; [reflexivity|apply payload_message].
  - rewrite (dispatch_modified w self e s Hk), on_modified_run, Hacc.
    unfold file_size_log, file_size_text. rewrite Hfile, Hsize.
    destruct (Hlog (net w (sent s)) (Some "File Modified")) as (l & m & ->).
    eexists _, l, m. split; [reflexivity|apply payload_message].
Qed.

(** The theorem at the created file of the sample run, its size lookup
    failing. *)
Lemma size_failure_still_notifies_witness :
  exists (payload : gmap string jval) (l : level) (m : string),
    dispatch failing_size_env sample_handler sample_event []
    = (Ret tt,
       [Log ERROR "Error getting file size: gone";
        Log INFO "Created: /watched/report.pdf";
        Post "https://ntfy.sh" payload;
        Log l m])
    /\ payload !! "message"
       = Some (JStr ("File created: report.pdf" ++ nl
                     ++ "Location: /watched/report.pdf" ++ nl
                     ++ "Size: Unknown" ++ nl
                     ++ "Time: 2024-01-01 00:00:00")).
Proof.
  apply (size_failure_still_notifies failing_size_env sample_handler
           sample_event [] "gone"); try reflexivity.
  left. reflexivity.
Defined.

(** X16: deleted and moved events never consult the file system: two
    environments with the same clock and the same relay give them the
    same outcome and the same effects. *)
Theorem deleted_and_moved_skip_file_system (w w' : env) (self : handler)
  (e : event) (s : state) :
  now w = now w' ->
  (forall i : nat, net w i = net w' i) ->
  event_kind e = Deleted \/ event_kind e = Moved ->
  dispatch w self e s = dispatch w' self e s.
Proof.
  intros Hnow Hnet [Hk|Hk]; unfold dispatch; rewrite Hk.
  - rewrite !on_deleted_run, Hnow, Hnet. reflexivity.
  - rewrite !on_moved_run, Hnow, Hnet. reflexivity.
Qed.

(** The theorem at the sample environment and the one whose size lookup
    fails. *)
Lemma deleted_and_moved_skip_file_system_witness :
  dispatch sample_env sample_handler
    (mkEvent Deleted "/watched/report.pdf" "" false) []
  = dispatch failing_size_env sample_handler
      (mkEvent Deleted "/watched/report.pdf" "" false) [].
Proof.
  apply deleted_and_moved_skip_file_system;
    [reflexivity|reflexivity|left; reflexivity].
Defined.

End PayloadProofs.

(** ** The number a size is shown with *)

Module SizeBounds.
Import PyStr OsPath PyNum FileChangeHandler Spec.

Lemma append_assoc (s t u : string) : (s ++ t) ++ u = s ++ t ++ u.
Proof.
  induction s as [|a s IH]; [reflexivity|].
  change (String a ((s ++ t) ++ u) = String a (s ++ t ++ u)).
  f_equal. exact IH.
Qed.

(** Rounding to the nearest integer stays within integer bounds of the
    quotient. *)
Lemma div_half_even_bounds (a b lo hi : Z) :
  0 < b -> lo * b <= a <= hi * b -> lo <= div_half_even a b <= hi.
Proof.
  intros Hb [Hlo Hhi]. unfold div_half_even.
  pose proof (Z.div_mod a b ltac:(lia)) as Hdm.
  pose proof (Z.mod_pos_bound a b Hb) as Hr.
  set (q := a / b) in *. set (r := a mod b) in *.
  assert (lo <= q) by nia.
  assert (q <= hi) by nia.
  destruct ((b <? 2 * r) || (2 * r =? b) && Z.odd q) eqn:E; [|lia].
  assert (0 < r).
  { apply orb_true_iff in E. destruct E as [E|E].
    - apply Z.ltb_lt in E. lia.
    - apply andb_true_iff in E. destruct E as [E _].
      apply Z.eqb_eq in E. lia. }
  nia.
Qed.

Lemma format_2f_Q_nonneg (n : Z) (d : positive) :
  0 <= n ->
  format_2f_Q (n # d)
  = let h := div_half_even (100 * n) (Zpos d) in
    str_of_Z (h / 100) ++ "." ++ two_digits (h mod 100).
Proof.
  intros Hn. unfold format_2f_Q. cbn [Qnum Qden].
  replace (n <? 0) with false by (symmetry; apply Z.ltb_ge; exact Hn).
  rewrite Z.abs_eq by exact Hn. reflexivity.
Qed.

(** The rounded quotient is a nearest integer, the even one of two. *)
Lemma div_half_even_nearest (a b : Z) :
  0 < b ->
  2 * Z.abs (a - div_half_even a b * b) <= b
  /\ (2 * Z.abs (a - div_half_even a b * b) = b ->
      Z.even (div_half_even a b) = true).
Proof.
  intros Hb. unfold div_half_even.
  pose proof (Z.div_mod a b ltac:(lia)) as Hdm.
  pose proof (Z.mod_pos_bound a b Hb) as Hr.
  set (q := a / b) in *. set (r := a mod b) in *.
  destruct (b <? 2 * r) eqn:E1; cbn [orb].
  - apply Z.ltb_lt in E1. split; [nia|]. intros H. exfalso. nia.
  - apply Z.ltb_ge in E1.
    destruct (2 * r =? b) eqn:E2; cbn [andb].
    + apply Z.eqb_eq in E2. destruct (Z.odd q) eqn:E3.
      * split; [nia|]. intros _.
        rewrite Z.even_add, <- Z.negb_odd, E3. reflexivity.
      * split; [nia|]. intros _. rewrite <- Z.negb_odd, E3. reflexivity.
    + apply Z.eqb_neq in E2. split; [nia|]. intros H. exfalso. nia.
Qed.

(** X17: a size below 1024 bytes is shown as that number with [.00 B];
    from 1024 bytes to below 1024^4 the number shown before the unit is
    the size divided by the unit, rounded to the nearest hundredth (to
    the even one of two), and lies between 1.00 and 1024.00, both
    included; 1048575 bytes are shown as [1024.00 KB]. *)
Theorem shown_size_range (n : N) :
  ((n < 1024)%N ->
   size_loop units (NInt (Z.of_N n)) = Some (str_of_Z (Z.of_N n) ++ ".00 B"))
  /\ ((1024 <= n < 1024 ^ 4)%N ->
      exists h : Z,
        100 <= h <= 102400
        /\ 2 * Z.abs (100 * Z.of_N n - h * 1024 ^ Z.of_nat (unit_index n))
           <= 1024 ^ Z.of_nat (unit_index n)
        /\ (2 * Z.abs (100 * Z.of_N n - h * 1024 ^ Z.of_nat (unit_index n))
            = 1024 ^ Z.of_nat (unit_index n) -> Z.even h = true)
        /\ size_loop units (NInt (Z.of_N n))
           = Some (str_of_Z (h / 100) ++ "." ++ two_digits (h mod 100)
                   ++ " " ++ nth (unit_index n) units ""))
  /\ size_loop units (NInt 1048575) = Some "1024.00 KB".
Proof.
  split; [|split; [|vm_compute; reflexivity]];
    rewrite SizeProofs.size_loop_human; unfold human_size, scaled;
    set (z := Z.of_N n);
    assert (Hz : 0 <= z) by (unfold z; lia).
  - intros Hn. unfold unit_index.
    replace (n <? 1024)%N with true by (symmetry; apply N.ltb_lt; exact Hn).
    rewrite SizeProofs.round53_exact by (unfold z; lia).
    change (Z.to_pos (1024 ^ Z.of_nat 0)) with 1%positive.
    rewrite format_2f_Q_nonneg by exact Hz. cbv zeta.
    unfold div_half_even. rewrite Z.div_1_r, Z.mod_1_r.
    change (1 <? 2 * 0) with false. change (2 * 0 =? 1) with false.
    cbn [orb andb].
    rewrite (Z.mul_comm 100 z), Z.div_mul, Z.mod_mul by lia.
    change (two_digits 0) with "00". change (nth 0 units "") with "B".
    rewrite append_assoc. reflexivity.
  - intros [Hlo Hhi].
    rewrite SizeProofs.round53_exact by (unfold z; lia).
    rewrite format_2f_Q_nonneg by exact Hz. cbv zeta.
    set (k := unit_index n).
    assert (Hk : (Z.pos (Z.to_pos (1024 ^ Z.of_nat k))) = 1024 ^ Z.of_nat k
                 /\ 1024 ^ Z.of_nat k <= z < 1024 * 1024 ^ Z.of_nat k).
    { unfold k, unit_index.
      replace (n <? 1024)%N with false by (symmetry; apply N.ltb_ge; lia).
      destruct (N.ltb_spec n (1024 ^ 2));
        [|destruct (N.ltb_spec n (1024 ^ 3));
          [|destruct (N.ltb_spec n (1024 ^ 4)); [|lia]]];
        (split; [reflexivity|]); unfold z; cbn [Z.of_nat Pos.of_succ_nat];
        lia. }
    destruct Hk as [Hpos Hrange]. rewrite Hpos.
    exists (div_half_even (100 * z) (1024 ^ Z.of_nat k)).
    destruct (div_half_even_nearest (100 * z) (1024 ^ Z.of_nat k))
      as [Hnear Htie]; [lia|].
    split; [apply div_half_even_bounds; lia|].
    split; [exact Hnear|]. split; [exact Htie|].
    rewrite !append_assoc. reflexivity.
Qed.

(** The theorem at 1023 bytes and at 1048575 bytes, where the number
    is 102400 hundredths. *)
Lemma shown_size_range_witness :
  size_loop units (NInt 1023) = Some "1023.00 B"
  /\ exists h : Z,
       100 <= h <= 102400
       /\ 2 * Z.abs (100 * 1048575 - h * 1024) <= 1024
       /\ (2 * Z.abs (100 * 1048575 - h * 1024) = 1024 -> Z.even h = true)
       /\ size_loop units (NInt 1048575)
          = Some (str_of_Z (h / 100) ++ "." ++ two_digits (h mod 100)
                  ++ " " ++ "KB").
Proof.
  split.
  - apply (proj1 (shown_size_range 1023)). reflexivity.
  - apply (proj1 (proj2 (shown_size_range 1048575))).
    split; [discriminate|reflexivity].
Defined.

End SizeBounds.

(** ** The effects of a whole run *)

Module RunProofs.
Import PyStr OsPath FileChangeHandler Spec Config NotifierProofs.

Lemma observer_free_app (tr tr' : list effect) :
  List.filter is_observer tr = [] -> List.filter is_observer tr' = [] ->
  List.filter is_observer (tr ++ tr') = [].
Proof. intros H H'. rewrite List.filter_app, H, H'. reflexivity. Qed.

Lemma observer_free_file_size_log (w : env) (path : string) :
  List.filter is_observer (file_size_log w path) = [].
Proof.
  unfold file_size_log.
  destruct (isfile w path); [destruct (getsize w path)|]; reflexivity.
Qed.

Lemma observer_free_notification (l : level) (msg url : string)
  (payload : gmap string jval) (o : net_outcome) (title : option string) :
  List.filter is_observer [Log l msg; Post url payload; delivery_log o title]
  = [].
Proof.
  destruct o as [code|m]; simpl; [destruct (code =? 200)|]; reflexivity.
Qed.

(** The effects of one callback: none of the observer, and one request
    exactly when the filter accepts the event. *)
Lemma dispatch_trace (w : env) (self : handler) (e : event) (s : state) :
  exists tr : list effect,
    dispatch w self e s = (Ret tt, (s ++ tr)%list)
    /\ List.filter is_observer tr = []
    /\ length (payloads tr)
       = if should_process_event self e then 1%nat else 0%nat.
Proof.
  unfold dispatch.
  destruct (event_kind e);
    [rewrite on_created_run|rewrite on_modified_run|rewrite on_deleted_run
    |rewrite on_moved_run];
    (destruct (should_process_event self e);
     [|exists []; rewrite app_nil_r; repeat split]);
    eexists; (split; [reflexivity|]);
    (split;
     [repeat apply observer_free_app;
      first [apply observer_free_file_size_log
            |apply observer_free_notification]
     |rewrite ?payloads_app, ?payloads_file_size_log, payloads_notification;
      reflexivity]).
Qed.

Lemma deliver_trace (w : env) (self : handler) (es : list event) :
  forall s : state,
    exists tr : list effect,
      deliver w self es s = (Ret tt, (s ++ tr)%list)
      /\ List.filter is_observer tr = []
      /\ length (payloads tr)
         = length (List.filter (should_process_event self) es).
Proof.
  induction es as [|e es IH]; intros s.
  - exists []. rewrite app_nil_r. repeat split.
  - cbn [deliver]. unfold bind.
    destruct (dispatch_trace w self e s) as (tr & -> & Hobs & Hlen).
    destruct (IH (s ++ tr)%list) as (tr' & -> & Hobs' & Hlen').
    exists (tr ++ tr')%list. rewrite app_assoc.
    split; [reflexivity|]. split; [apply observer_free_app; assumption|].
    rewrite payloads_app, length_app, Hlen, Hlen'. cbn [List.filter].
    destruct (should_process_event self e); reflexivity.
Qed.

Lemma observer_free_sleeps (n : nat) :
  List.filter is_observer (repeat Sleep n) = [].
Proof. induction n as [|n IH]; [reflexivity|exact IH]. Qed.

Lemma observer_free_delivery_log (o : net_outcome) (title : option string) :
  is_observer (delivery_log o title) = false.
Proof.
  destruct o as [code|m]; simpl; [destruct (code =? 200)|]; reflexivity.
Qed.

(** The course of [main] when the watched path exists. *)
Lemma main_run_shape (w : env) (a : Main.args) (s : state) :
  path_exists w (Main.path a) = true ->
  exists (o o' : net_outcome) (logs events : list effect),
    Main.main w a s
    = (Ret tt,
       (s ++ ([Post "https://ntfy.sh"
                 (build_payload (configured_handler a)
                    "Started monitoring folder for changes"
                    (Some "Folder Monitoring Started") (PInt 3)
                    (Some "rocket") None None None);
               delivery_log o (Some "Folder Monitoring Started")] ++ logs)
          ++ [ObserverSchedule (Main.path a) (Main.recursive a);
              ObserverStart]
          ++ ([Log INFO ("Monitoring folder: " ++ abspath w (Main.path a)
                         ++ " (recursive: "
                         ++ Main.fmt_bool (Main.recursive a) ++ ")")]
              ++ events ++ repeat Sleep (interrupt_after w)
              ++ [Log INFO "Monitoring stopped by user";
                  Post "https://ntfy.sh"
                    (build_payload (configured_handler a)
                       "Folder monitoring stopped by user"
                       (Some "Monitoring Stopped") (PInt 3)
                       (Some "stop_sign") None None None);
                  delivery_log o' (Some "Monitoring Stopped")])
          ++ [ObserverStop; ObserverJoin])%list)
    /\ payloads logs = [] /\ List.filter is_observer logs = []
    /\ List.filter is_observer events = []
    /\ length (payloads events)
       = length (List.filter (should_process_event (configured_handler a))
                   (arrivals w)).
Proof.
  intros H. unfold Main.main. rewrite H. cbn [negb].
  unfold bind at 1. unfold ret at 1. unfold bind at 1.
  fold (configured_extensions a).
  unfold init, bind at 1 2 3. rewrite send_notification_run.
  fold (configured_handler a).
  unfold bind, log, emit, ret, try_except_interrupt, Main.observer_thread.
  cbv beta iota.
  set (started := build_payload (configured_handler a)
                    "Started monitoring folder for changes" _ _ _ _ _ _).
  set (stopped := build_payload (configured_handler a)
                    "Folder monitoring stopped by user" _ _ _ _ _ _).
  exists (net w (sent s)).
  destruct (truthy_list (configured_extensions a)); cbv beta iota;
    match goal with
    | |- context [deliver w ?h ?es ?st] =>
        destruct (deliver_trace w h es st) as (events & -> & Hobs & Hlen)
    end;
    cbn [snd]; rewrite MainProofs.idle_loop_run, send_notification_run;
    fold stopped;
    match goal with
    | |- context [delivery_log (net w ?n) (Some "Monitoring Stopped")] =>
        exists (net w n)
    end.
  - exists [Log INFO ("Started monitoring. Notifications will be sent to topic: "
                      ++ Main.topic a);
            Log INFO ("Monitoring only these extensions: "
                      ++ join ", " (default [] (configured_extensions a)))],
      events.
    split; [rewrite <- !app_assoc; reflexivity|].
    repeat split; assumption.
  - exists [Log INFO ("Started monitoring. Notifications will be sent to topic: "
                      ++ Main.topic a)],
      events.
    split; [rewrite <- !app_assoc; reflexivity|].
    repeat split; assumption.
Qed.

Lemma payloads_post_delivery (url : string) (payload : gmap string jval)
  (o : net_outcome) (title : option string) :
  payloads [Post url payload; delivery_log o title] = [payload].
Proof.
  destruct o as [code|m]; simpl; [destruct (code =? 200)|]; reflexivity.
Qed.

(** X18: a run on an existing path sends the start notification
    first; its other requests are, in some order, the stop notification
    and one request for each event the handler of [main] accepts. *)
Theorem run_requests (w : env) (a : Main.args) :
  path_exists w (Main.path a) = true ->
  exists (started stopped : gmap string jval)
         (rest between : list (gmap string jval)),
    payloads (snd (Main.run w a)) = started :: rest
    /\ Permutation rest (stopped :: between)
    /\ started !! "title" = Some (JStr "Folder Monitoring Started")
    /\ stopped !! "title" = Some (JStr "Monitoring Stopped")
    /\ stopped !! "priority" = Some (JInt 3)
    /\ stopped !! "tags" = Some (JList [JStr "stop_sign"])
    /\ length between
       = length (List.filter (should_process_event (configured_handler a))
                   (arrivals w)).
Proof.
  intros H. unfold Main.run.
  destruct (main_run_shape w a Main.initial H)
    as (o & o' & logs & events & -> & Hlogs & _ & _ & Hlen).
  cbn [snd].
  eexists _, _, _, (payloads events). split.
  - rewrite app_nil_l.
    rewrite !payloads_app, Hlogs, MainProofs.payloads_sleeps,
      payloads_notification, payloads_post_delivery.
    cbn [payloads app]. rewrite !app_nil_r. reflexivity.
  - split; [symmetry; apply Permutation_cons_append|].
    rewrite !payload_title, payload_priority, payload_tags.
    repeat split. exact Hlen.
Qed.

(** The theorem at the sample run. *)
Lemma run_requests_witness :
  exists (started stopped : gmap string jval)
         (rest between : list (gmap string jval)),
    payloads (snd (Main.run sample_env sample_args)) = started :: rest
    /\ Permutation rest (stopped :: between)
    /\ started !! "title" = Some (JStr "Folder Monitoring Started")
    /\ stopped !! "title" = Some (JStr "Monitoring Stopped")
    /\ stopped !! "priority" = Some (JInt 3)
    /\ stopped !! "tags" = Some (JList [JStr "stop_sign"])
    /\ length between
       = length (List.filter
                   (should_process_event (configured_handler sample_args))
                   (arrivals sample_env)).
Proof. apply (run_requests sample_env sample_args). reflexivity. Defined.

(** X19: on an existing path the main thread schedules the observer on
    the path and with the recursive flag of the command line and starts
    it at once, later stops it and then joins it, once each; the start
    notification is the only request before the scheduling, and the stop
    notification is requested before the observer is stopped. *)
Theorem observer_life_cycle (w : env) (a : Main.args) :
  path_exists w (Main.path a) = true ->
  exists (before after early late : list effect)
         (started stopped : gmap string jval),
    snd (Main.run w a)
    = (before
       ++ ObserverSchedule (Main.path a) (Main.recursive a)
       :: ObserverStart :: after)%list
    /\ List.filter is_observer before = []
    /\ payloads before = [started]
    /\ started !! "title" = Some (JStr "Folder Monitoring Started")
    /\ List.filter is_observer after = [ObserverStop; ObserverJoin]
    /\ after = (early ++ ObserverStop :: late)%list
    /\ In stopped (payloads early)
    /\ stopped !! "title" = Some (JStr "Monitoring Stopped").
Proof.
  intros H. unfold Main.run.
  destruct (main_run_shape w a Main.initial H)
    as (o & o' & logs & events & -> & Hlogs & Hobs & Hobs' & _).
  cbn [snd]. rewrite app_nil_l.
  eexists _, _, _, [ObserverJoin], _, _.
  split; [reflexivity|].
  split.
  { apply observer_free_app; [|exact Hobs].
    cbn [List.filter is_observer]. rewrite observer_free_delivery_log.
    reflexivity. }
  split.
  { rewrite payloads_app, Hlogs, app_nil_r. apply payloads_post_delivery. }
  split; [rewrite payload_title; reflexivity|].
  split.
  { rewrite List.filter_app.
    replace (List.filter is_observer _) with (@nil effect) at 1;
      [reflexivity|].
    symmetry. repeat apply observer_free_app;
      try assumption; try apply observer_free_sleeps; try reflexivity.
    apply observer_free_notification. }
  split; [reflexivity|].
  split.
  { rewrite !payloads_app, MainProofs.payloads_sleeps, payloads_notification.
    apply in_or_app. right. apply in_or_app. right. apply in_or_app. right.
    left. reflexivity. }
  rewrite payload_title. reflexivity.
Qed.

(** The theorem at the sample run. *)
Lemma observer_life_cycle_witness :
  exists (before after early late : list effect)
         (started stopped : gmap string jval),
    snd (Main.run sample_env sample_args)
    = (before ++ ObserverSchedule "/watched" false :: ObserverStart
       :: after)%list
    /\ List.filter is_observer before = []
    /\ payloads before = [started]
    /\ started !! "title" = Some (JStr "Folder Monitoring Started")
    /\ List.filter is_observer after = [ObserverStop; ObserverJoin]
    /\ after = (early ++ ObserverStop :: late)%list
    /\ In stopped (payloads early)
    /\ stopped !! "title" = Some (JStr "Monitoring Stopped").
Proof. apply (observer_life_cycle sample_env sample_args). reflexivity. Defined.

End RunProofs.
